(** * NotesVerb authentication service: credential and token lifecycle

    A shallow embedding of the auth service's [AuthService] class
    (register, login, refreshToken, logout, validateToken, getUserById
    and the private generateTokens) together with the parts of
    [shared/types] and [shared/utils] it uses.

    The service is asynchronous TypeScript over three libraries:
    - Prisma (the relational store),
    - jsonwebtoken ([jwt.sign], [jwt.verify]),
    - bcryptjs ([bcrypt.hash], [bcrypt.compare]).

    Every [await] is sequential inside one request, so a request is a
    function from the database to an outcome, a new database and the list
    of writes it issued.  A thrown value is an outcome, and the database
    reached so far is kept: nothing in the service opens a transaction.
    The clock ([new Date()], [Date.now()]) is an argument [now], epoch
    milliseconds, read once per request.  The token library, the
    password hasher and the time zone of the process are parameters of
    the service; requests are served one after the other. *)

From Stdlib Require Import String Ascii List ZArith Bool Lia.
From Stdlib Require Import DecimalString DecimalZ.
Import ListNotations.

Local Open Scope string_scope.
Local Open Scope list_scope.
Local Open Scope Z_scope.

#[local] Set Default Proof Using "Type".
#[local] Set Warnings "-notation-for-abbreviation".

(* ================================================================== *)
(** ** shared/types/index.ts *)

(** [interface User]: the public view of a user, without the password. *)
Module User.
Record t := mk
  { id : string; email : string; createdAt : Z; updatedAt : Z }.
End User.

(** [interface AuthTokens] *)
Module AuthTokens.
Record t := mk { accessToken : string; refreshToken : string }.
End AuthTokens.

(** [interface JWTPayload]: what [jwt.verify] decodes. *)
Module JWTPayload.
Record t := mk { userId : string; email : string; iat : Z; exp : Z }.
End JWTPayload.

(** Values thrown by the libraries, none of them a [ServiceError]. *)
Inductive LibError : Type :=
| JsonWebTokenError                             (* jwt.sign / jwt.verify *)
| PrismaClientKnownRequestError (code : string) (* "P2002", "P2025" *)
| TypeError.                                    (* property read on null *)

(** [class ServiceError extends Error].  [code] is declared
    [string | undefined]; at run time the service also stores a caught
    error object there, so the field holds an optional library error. *)
Module ServiceError.
Record t := mk
  { message : string;
    statusCode : Z;
    code : option LibError;
    details : option LibError }.
End ServiceError.

(** A thrown value: [error instanceof ServiceError] or anything else. *)
Inductive Thrown : Type :=
| IsServiceError (e : ServiceError.t)
| Other (e : LibError).

(** The error kinds of the specification, read off the status code that a
    [ServiceError] carries. *)
Inductive ErrorKind : Type :=
| Conflict | Unauthenticated | NotFound | InternalError.

Definition kindOfStatus (status : Z) : ErrorKind :=
  if status =? 409 then Conflict
  else if status =? 401 then Unauthenticated
  else if status =? 404 then NotFound
  else InternalError.

Definition kindOf (e : ServiceError.t) : ErrorKind :=
  kindOfStatus (ServiceError.statusCode e).

(* ================================================================== *)
(** ** shared/utils/index.ts *)

Definition createServiceResponse
  (message : string) (statusCode : Z)
  (code details : option LibError) : ServiceError.t :=
  ServiceError.mk message statusCode code details.

Definition createServiceError
  (message : string) (statusCode : Z)
  (code details : option LibError) : ServiceError.t :=
  ServiceError.mk message statusCode code details.

(* ================================================================== *)
(** ** Rows of the two tables behind the Prisma client *)

(** Model [User]: the stored row, with the password hash. *)
Module UserRow.
Record t := mk
  { id : string; email : string; password : string;
    createdAt : Z; updatedAt : Z }.
End UserRow.

(** Model [RefreshToken]. *)
Module RefreshTokenRow.
Record t := mk
  { id : string; userId : string; token : string; expiresAt : Z }.
End RefreshTokenRow.

(** The database: both tables in insertion order, and the number of
    identifiers handed out so far. *)
Module Db.
Record t := mk
  { users : list UserRow.t;
    refreshTokens : list RefreshTokenRow.t;
    nextId : nat }.
Definition empty : t := mk [] [] 0.
End Db.

(** A write that reached the database. *)
Inductive StoreOp : Type :=
| UserCreate (u : UserRow.t)
| UserDelete (id : string)
| RefreshTokenCreate (r : RefreshTokenRow.t)
| RefreshTokenDelete (id : string)
| RefreshTokenDeleteMany (token : string).

(* ================================================================== *)
(** ** Requests: state, exceptions and the journal of writes *)

Inductive Outcome (A : Type) : Type :=
| Returned (a : A)
| Threw (t : Thrown).
Arguments Returned {A} a.
Arguments Threw {A} t.

Definition M (A : Type) : Type := Db.t -> Outcome A * Db.t * list StoreOp.

Definition ret {A} (a : A) : M A := fun d => (Returned a, d, []).

Definition throw {A} (t : Thrown) : M A := fun d => (Threw t, d, []).

Definition bind {A B} (m : M A) (f : A -> M B) : M B :=
  fun d =>
    match m d with
    | (Returned a, d1, w1) =>
        match f a d1 with
        | (o, d2, w2) => (o, d2, w1 ++ w2)
        end
    | (Threw t, d1, w1) => (Threw t, d1, w1)
    end.

(** [try { m } catch (error) { h error }] *)
Definition try_catch {A} (m : M A) (h : Thrown -> M A) : M A :=
  fun d =>
    match m d with
    | (Returned a, d1, w1) => (Returned a, d1, w1)
    | (Threw t, d1, w1) =>
        match h t d1 with
        | (o, d2, w2) => (o, d2, w1 ++ w2)
        end
    end.

Notation "x <- m ;; k" := (bind m (fun x => k))
  (at level 61, m at next level, right associativity).

(** A library call that returns or throws, lifted into a request. *)
Definition orThrow {A} (e : LibError) (r : option A) : M A :=
  match r with
  | Some a => ret a
  | None => throw (Other e)
  end.

(** Components of a finished request. *)
Definition outcome {A} (r : Outcome A * Db.t * list StoreOp) : Outcome A :=
  fst (fst r).
Definition database {A} (r : Outcome A * Db.t * list StoreOp) : Db.t :=
  snd (fst r).
Definition writes {A} (r : Outcome A * Db.t * list StoreOp) : list StoreOp :=
  snd r.

(** Decimal rendering of an integer, as in a JSON number, and its reader. *)
Definition showZ (z : Z) : string := NilEmpty.string_of_int (Z.to_int z).

Definition readZ (s : string) : option Z :=
  option_map Z.of_int (NilEmpty.int_of_string s).

(* ================================================================== *)
(** ** The Prisma client, as far as the service calls it *)

Module Prisma.

(** Identifiers are generated by the database ([@default(cuid())]):
    distinct on every insert.  The n-th one is the numeral of n. *)
Definition genId (n : nat) : string := showZ (Z.of_nat n).

Definition findUserByEmail (email : string) (d : Db.t) : option UserRow.t :=
  find (fun u => String.eqb (UserRow.email u) email) (Db.users d).

Definition findUserById (id : string) (d : Db.t) : option UserRow.t :=
  find (fun u => String.eqb (UserRow.id u) id) (Db.users d).

Definition findRefreshToken (token : string) (d : Db.t)
  : option RefreshTokenRow.t :=
  find (fun r => String.eqb (RefreshTokenRow.token r) token) (Db.refreshTokens d).

Definition findRefreshTokenById (id : string) (d : Db.t)
  : option RefreshTokenRow.t :=
  find (fun r => String.eqb (RefreshTokenRow.id r) id) (Db.refreshTokens d).

(** [prisma.user.findUnique({ where: { email } })] *)
Definition user_findUnique_email (email : string) : M (option UserRow.t) :=
  fun d => (Returned (findUserByEmail email d), d, []).

(** [prisma.user.findUnique({ where: { id } })] *)
Definition user_findUnique_id (id : string) : M (option UserRow.t) :=
  fun d => (Returned (findUserById id d), d, []).

(** [prisma.user.findUnique({ where: { id }, select: { id, email,
    createdAt, updatedAt } })] *)
Definition selectUser (u : UserRow.t) : User.t :=
  User.mk (UserRow.id u) (UserRow.email u)
          (UserRow.createdAt u) (UserRow.updatedAt u).

Definition user_findUnique_id_select (id : string) : M (option User.t) :=
  fun d => (Returned (option_map selectUser (findUserById id d)), d, []).

(** Modelled from the spec: the unique columns of the database schema,
    which is not among the sources ("email (unique, case-sensitive as
    stored)"; [email] is also the key of [findUnique] above).
    [prisma.user.create({ data: { email, password } })] inserts the row
    with a generated id and both timestamps at [now]; a second row with
    the same email is refused with P2002. *)
Definition user_create (now : Z) (email password : string) : M UserRow.t :=
  fun d =>
    match findUserByEmail email d with
    | Some _ => (Threw (Other (PrismaClientKnownRequestError "P2002")), d, [])
    | None =>
        let u := UserRow.mk (genId (Db.nextId d)) email password now now in
        (Returned u,
         Db.mk (Db.users d ++ [u]) (Db.refreshTokens d) (S (Db.nextId d)),
         [UserCreate u])
    end.

(** Modelled from the spec: the unique columns of the database schema,
    which is not among the sources ("opaque signed token string
    (unique)"; [token] is also the key of [findUnique] below).
    [prisma.refreshToken.create({ data: { userId, token, expiresAt } })]
    inserts the row with a generated id; a second row with the same
    token string is refused with P2002. *)
Definition refreshToken_create (userId token : string) (expiresAt : Z)
  : M RefreshTokenRow.t :=
  fun d =>
    match findRefreshToken token d with
    | Some _ => (Threw (Other (PrismaClientKnownRequestError "P2002")), d, [])
    | None =>
        let r := RefreshTokenRow.mk (genId (Db.nextId d)) userId token
                                    expiresAt in
        (Returned r,
         Db.mk (Db.users d) (Db.refreshTokens d ++ [r]) (S (Db.nextId d)),
         [RefreshTokenCreate r])
    end.

(** [prisma.refreshToken.findUnique({ where: { token },
    include: { user: true } })]: the row and the user it references. *)
Definition refreshToken_findUnique_include_user (token : string)
  : M (option (RefreshTokenRow.t * option UserRow.t)) :=
  fun d =>
    (Returned
       (option_map
          (fun r => (r, findUserById (RefreshTokenRow.userId r) d))
          (findRefreshToken token d)),
     d, []).

(** [prisma.refreshToken.delete({ where: { id } })]: P2025 when no row
    has this id. *)
Definition refreshToken_delete (id : string) : M RefreshTokenRow.t :=
  fun d =>
    match findRefreshTokenById id d with
    | None => (Threw (Other (PrismaClientKnownRequestError "P2025")), d, [])
    | Some r =>
        (Returned r,
         Db.mk (Db.users d)
               (filter (fun r' => negb (String.eqb (RefreshTokenRow.id r') id))
                       (Db.refreshTokens d))
               (Db.nextId d),
         [RefreshTokenDelete id])
    end.

(** [prisma.refreshToken.deleteMany({ where: { token } })]: returns the
    number of rows deleted, never throws for want of a row. *)
Definition refreshToken_deleteMany (token : string) : M nat :=
  fun d =>
    (Returned
       (length (filter (fun r => String.eqb (RefreshTokenRow.token r) token)
                       (Db.refreshTokens d))),
     Db.mk (Db.users d)
           (filter (fun r => negb (String.eqb (RefreshTokenRow.token r) token))
                   (Db.refreshTokens d))
           (Db.nextId d),
     [RefreshTokenDeleteMany token]).

(** Modelled from the spec: the cascade of the database schema, which is
    not among the sources ("deleted on explicit account deletion
    (cascades to revoke all refresh tokens for that user)").
    [prisma.user.delete({ where: { id } })] removes the user and, with
    it, the refresh tokens that reference it; P2025 when no user has
    this id. *)
Definition user_delete (id : string) : M UserRow.t :=
  fun d =>
    match findUserById id d with
    | None => (Threw (Other (PrismaClientKnownRequestError "P2025")), d, [])
    | Some u =>
        (Returned u,
         Db.mk (filter (fun u' => negb (String.eqb (UserRow.id u') id))
                       (Db.users d))
               (filter (fun r => negb (String.eqb (RefreshTokenRow.userId r)
                                                  id))
                       (Db.refreshTokens d))
               (Db.nextId d),
         [UserDelete id])
    end.

End Prisma.

(* ================================================================== *)
(** ** The [AuthService] class *)

(** The object literal [{ userId, email }] handed to [jwt.sign]. *)
Module Payload.
Record t := mk { userId : string; email : string }.
End Payload.

(** The five private fields the constructor reads from the environment
    ([JWT_SECRET], [JWT_REFRESH_SECRET], [JWT_EXPIRES_IN] or "15m",
    [JWT_REFRESH_EXPIRES_IN] or "7d", [BCRYPT_ROUNDS] or 10). *)
Module Config.
Record t := mk
  { jwtSecret : string;
    jwtRefreshSecret : string;
    jwtExpiresIn : string;
    jwtRefreshExpiresIn : string;
    bcryptRounds : Z }.
End Config.

(** [Date] values are epoch milliseconds, within the range of [Date]. *)
Definition msPerDay : Z := 86400000.

(** The time zone of the process: [LocalTZA(t, isUTC)], the offset of
    local time from UTC in milliseconds, for the UTC instant [t] when
    [isUTC] holds and for the local time value [t] otherwise. *)
Definition Zone : Type := Z -> bool -> Z.

(** [LocalTime(t)] and [UTC(t)] *)
Definition LocalTime (zone : Zone) (t : Z) : Z := t + zone t true.

Definition UTC (zone : Zone) (t : Z) : Z := t - zone t false.

(** [d.setDate(d.getDate() + n)]: the date is read and set on the local
    calendar.  [setDate] makes the day [n] days after the local day of
    [d] and keeps the local time within the day, which is the local time
    value plus [n] times 86 400 000 ms, and turns it back into UTC. *)
Definition Date_setDate_plus (zone : Zone) (d : Z) (n : Z) : Z :=
  UTC zone (LocalTime zone d + n * msPerDay).

(** The zone of a server that runs on UTC, and any zone whose offset
    never changes. *)
Definition fixedZone (offset : Z) : Zone := fun _ _ => offset.

Definition utcZone : Zone := fixedZone 0.

Module AuthService.
Section WithLibraries.

(** [jwt.sign(payload, secret, { expiresIn })] at clock [now]: the token
    string, or nothing when it throws (an [expiresIn] that is no time
    span).  The library draws no randomness: header, payload, [iat] and
    [exp] and the HMAC are determined by the arguments and the clock. *)
Variable jwt_sign : Payload.t -> string -> string -> Z -> option string.

(** [jwt.verify(token, secret)] at clock [now]: the decoded payload, or
    nothing when it throws (bad signature, malformed, expired). *)
Variable jwt_verify : string -> string -> Z -> option JWTPayload.t.

(** [bcrypt.hash(password, rounds)]; the salt it draws is an argument. *)
Variable bcrypt_hash : string -> Z -> string -> string.

(** [bcrypt.compare(password, hash)] *)
Variable bcrypt_compare : string -> string -> bool.

Variable cfg : Config.t.

(** The time zone the process runs in. *)
Variable localTZA : Zone.

(** [private async generateTokens(userId, email)] *)
Definition generateTokens (now : Z) (userId email : string)
  : M AuthTokens.t :=
  let payload := Payload.mk userId email in
  accessToken <-
    orThrow JsonWebTokenError
      (jwt_sign payload (Config.jwtSecret cfg) (Config.jwtExpiresIn cfg)
                now) ;;
  refreshToken <-
    orThrow JsonWebTokenError
      (jwt_sign payload (Config.jwtRefreshSecret cfg)
                (Config.jwtRefreshExpiresIn cfg) now) ;;
  let expiresAt := Date_setDate_plus localTZA now 7 in
  _ <- Prisma.refreshToken_create userId refreshToken expiresAt ;;
  ret (AuthTokens.mk accessToken refreshToken).

(** [async register(email, password)] *)
Definition register (now : Z) (salt : string) (email password : string)
  : M AuthTokens.t :=
  existingUser <- Prisma.user_findUnique_email email ;;
  match existingUser with
  | Some _ =>
      throw (IsServiceError
               (createServiceResponse "User already exists" 409 None None))
  | None =>
      let hashPassword :=
        bcrypt_hash password (Config.bcryptRounds cfg) salt in
      user <- Prisma.user_create now email hashPassword ;;
      generateTokens now (UserRow.id user) (UserRow.email user)
  end.

(** [async login(email, password)] *)
Definition login (now : Z) (email password : string) : M AuthTokens.t :=
  user <- Prisma.user_findUnique_email email ;;
  match user with
  | None =>
      throw (IsServiceError
               (createServiceResponse "Invalid email or password" 401
                                      None None))
  | Some user =>
      if negb (bcrypt_compare password (UserRow.password user)) then
        throw (IsServiceError
                 (createServiceResponse "Invalid email or password" 401
                                        None None))
      else generateTokens now (UserRow.id user) (UserRow.email user)
  end.

(** [async refreshToken(refreshToken)] *)
Definition refreshToken (now : Z) (refreshToken : string)
  : M AuthTokens.t :=
  try_catch
    (_decoded <-
       orThrow JsonWebTokenError
         (jwt_verify refreshToken (Config.jwtRefreshSecret cfg) now) ;;
     storedToken <-
       Prisma.refreshToken_findUnique_include_user refreshToken ;;
     match storedToken with
     | None =>
         throw (IsServiceError
                  (createServiceError "Invalid refresh token" 401
                                      None None))
     | Some (storedToken, storedToken_user) =>
         if RefreshTokenRow.expiresAt storedToken <? now then
           throw (IsServiceError
                    (createServiceError "Invalid refresh token" 401
                                        None None))
         else
           match storedToken_user with
           | None => throw (Other TypeError)
           | Some user =>
               tokens <-
                 generateTokens now (UserRow.id user) (UserRow.email user) ;;
               _ <- Prisma.refreshToken_delete
                      (RefreshTokenRow.id storedToken) ;;
               ret tokens
           end
     end)
    (fun error =>
       match error with
       | IsServiceError e => throw (IsServiceError e)
       | Other e =>
           throw (IsServiceError
                    (createServiceError "Invalid refresh token" 401
                                        (Some e) None))
       end).

(** [async logout(refreshToken)] *)
Definition logout (refreshToken : string) : M unit :=
  _ <- Prisma.refreshToken_deleteMany refreshToken ;;
  ret tt.

(** [async validateToken(token)] *)
Definition validateToken (now : Z) (token : string) : M JWTPayload.t :=
  try_catch
    (decoded <-
       orThrow JsonWebTokenError
         (jwt_verify token (Config.jwtSecret cfg) now) ;;
     user <- Prisma.user_findUnique_id (JWTPayload.userId decoded) ;;
     match user with
     | None =>
         throw (IsServiceError
                  (createServiceError "User not found" 404 None None))
     | Some _ => ret decoded
     end)
    (fun error =>
       match error with
       | IsServiceError e => throw (IsServiceError e)
       | Other e =>
           throw (IsServiceError
                    (createServiceError "Invalid token" 401 (Some e) None))
       end).

(** [async getUserById(userId): Promise<User | null>] *)
Definition getUserById (userId : string) : M (option User.t) :=
  user <- Prisma.user_findUnique_id_select userId ;;
  match user with
  | None =>
      throw (IsServiceError
               (createServiceError "User not found" 404 None None))
  | Some user => ret (Some user)
  end.

(** [async deleteUser(userId)] *)
Definition deleteUser (userId : string) : M unit :=
  _ <- Prisma.user_delete userId ;;
  ret tt.

End WithLibraries.
End AuthService.

(* ================================================================== *)
(** ** The Token Signer and the Password Hasher *)

(** A string field that delimits itself inside a longer string: every
    character is announced by "+", the end of the field by ";". *)
Fixpoint putField (field rest : string) : string :=
  match field with
  | EmptyString => String ";" rest
  | String c field' => String "+" (String c (putField field' rest))
  end.

Fixpoint getField (s : string) : option (string * string) :=
  match s with
  | EmptyString => None
  | String mark s1 =>
      if Ascii.eqb mark ";" then Some (EmptyString, s1)
      else if Ascii.eqb mark "+" then
        match s1 with
        | EmptyString => None
        | String c s2 =>
            match getField s2 with
            | Some (field, rest) => Some (String c field, rest)
            | None => None
            end
        end
      else None
  end.

Module Jwt.
Section Signer.

(** The time-span reader applied to [expiresIn] (milliseconds), and the
    keyed MAC that signs the claims. *)
Variable ms : string -> option Z.
Variable mac : string -> string -> string.

Definition encodeClaims (c : JWTPayload.t) (rest : string) : string :=
  putField (JWTPayload.userId c)
    (putField (JWTPayload.email c)
       (putField (showZ (JWTPayload.iat c))
          (putField (showZ (JWTPayload.exp c)) rest))).

Definition decodeClaims (s : string) : option (JWTPayload.t * string) :=
  match getField s with
  | Some (userId, s1) =>
      match getField s1 with
      | Some (email, s2) =>
          match getField s2 with
          | Some (iat, s3) =>
              match getField s3 with
              | Some (exp, rest) =>
                  match readZ iat, readZ exp with
                  | Some iat, Some exp =>
                      Some (JWTPayload.mk userId email iat exp, rest)
                  | _, _ => None
                  end
              | None => None
              end
          | None => None
          end
      | None => None
      end
  | None => None
  end.

(** Modelled from the spec: the Token Signer of section 4.3, which the
    service imports as the jsonwebtoken package.  "sign(payload, secret,
    ttl): embeds issued-at and expiry derived from ttl; signature uses a
    symmetric algorithm with the given secret."  Issued-at is the clock
    in whole seconds, expiry is issued-at plus the span in whole
    seconds, and signing throws when [expiresIn] is no time span. *)
Definition sign (payload : Payload.t) (secret expiresIn : string) (now : Z)
  : option string :=
  match ms expiresIn with
  | None => None
  | Some span =>
      let iat := now / 1000 in
      let claims :=
        JWTPayload.mk (Payload.userId payload) (Payload.email payload)
                      iat (iat + span / 1000) in
      Some (encodeClaims claims (mac secret (encodeClaims claims "")))
  end.

(** Modelled from the spec: the Token Signer of section 4.3, which the
    service imports as the jsonwebtoken package.  "verify(token string,
    secret): fails if signature invalid or expiry has elapsed", and by
    section 8 a token signed with ttl = 0 fails: the token is refused
    from the second of its expiry on. *)
Definition verify (token secret : string) (now : Z)
  : option JWTPayload.t :=
  match decodeClaims token with
  | None => None
  | Some (claims, tag) =>
      if negb (String.eqb tag (mac secret (encodeClaims claims ""))) then
        None
      else if JWTPayload.exp claims <=? now / 1000 then None
      else Some claims
  end.

End Signer.

(** The spans the configuration uses: an unsigned decimal number with
    one of the short units, or no unit for milliseconds. *)
Definition isDigit (c : ascii) : bool :=
  let n := nat_of_ascii c in (48 <=? n)%nat && (n <=? 57)%nat.

Fixpoint splitDigits (s : string) : string * string :=
  match s with
  | EmptyString => (EmptyString, EmptyString)
  | String c s' =>
      if isDigit c then
        match splitDigits s' with
        | (digits, unit) => (String c digits, unit)
        end
      else (EmptyString, s)
  end.

Definition unitMs (unit : string) : option Z :=
  if String.eqb unit "" then Some 1
  else if String.eqb unit "ms" then Some 1
  else if String.eqb unit "s" then Some 1000
  else if String.eqb unit "m" then Some 60000
  else if String.eqb unit "h" then Some 3600000
  else if String.eqb unit "d" then Some 86400000
  else if String.eqb unit "w" then Some 604800000
  else None.

Definition msShort (span : string) : option Z :=
  match splitDigits span with
  | (digits, unit) =>
      if String.eqb digits "" then None
      else
        match readZ digits, unitMs unit with
        | Some n, Some k => Some (n * k)
        | _, _ => None
        end
  end.

(** An ideal MAC: the tag determines the key. *)
Definition idealMac (key message : string) : string :=
  putField key message.

End Jwt.

Module Bcrypt.

(** Modelled from the spec: the Password Hasher of section 4.2, which
    the service imports as the bcryptjs package.  "hash(plaintext):
    one-way adaptive hash with configurable work factor; verify(plaintext,
    hash): comparison via the hash's own verification routine."  The hash
    carries its salt and work factor; the digest is ideal. *)
Definition hash (password : string) (rounds : Z) (salt : string) : string :=
  putField salt (putField (showZ rounds) password).

(** Modelled from the spec: the Password Hasher of section 4.2 (bcryptjs),
    "verify(plaintext, hash)": the hash is taken apart and its digest is
    compared with the one the plaintext gives. *)
Definition compare (password hashed : string) : bool :=
  match getField hashed with
  | Some (_, s1) =>
      match getField s1 with
      | Some (_, digest) => String.eqb digest password
      | None => false
      end
  | None => false
  end.

End Bcrypt.

(** The service over these two libraries, with the default life times. *)
Module Std.

Definition cfg : Config.t :=
  Config.mk "access-secret" "refresh-secret" "15m" "7d" 10.

Definition jwt_sign := Jwt.sign Jwt.msShort Jwt.idealMac.
Definition jwt_verify := Jwt.verify Jwt.idealMac.

Definition zone : Zone := utcZone.

Definition register := AuthService.register jwt_sign Bcrypt.hash cfg zone.
Definition login := AuthService.login jwt_sign Bcrypt.compare cfg zone.
Definition refreshToken :=
  AuthService.refreshToken jwt_sign jwt_verify cfg zone.
Definition validateToken := AuthService.validateToken jwt_verify cfg.

(** A clock reading, the first registration at that instant, the token
    pair it returns and the database it leaves. *)
Definition t0 : Z := 1700000000000.

Definition registered := register t0 "salt" "a@x.com" "pw1" Db.empty.

Definition db1 : Db.t := database registered.

Definition RT1 : string :=
  match outcome registered with
  | Returned tokens => AuthTokens.refreshToken tokens
  | Threw _ => ""
  end.

Definition AT1 : string :=
  match outcome registered with
  | Returned tokens => AuthTokens.accessToken tokens
  | Threw _ => ""
  end.

(** A verifier that accepts everything and decodes somebody else. *)
Definition verifyAsIntruder (token secret : string) (now : Z)
  : option JWTPayload.t :=
  Some (JWTPayload.mk "intruder" "i@x.com" 0 0).

End Std.

(* ================================================================== *)
(** ** The invariant of the database *)

(** An identifier is allocated below [n] when it is one of the first [n]
    generated ones. *)
Definition allocated (n : nat) (id : string) : Prop :=
  exists k, (k < n)%nat /\ id = Prisma.genId k.

(** The unique columns hold distinct values and every identifier in use
    was handed out by the generator. *)
Record db_ok (d : Db.t) : Prop := mk_db_ok
  { emails_unique : NoDup (map UserRow.email (Db.users d));
    user_ids_unique : NoDup (map UserRow.id (Db.users d));
    user_ids_allocated :
      Forall (fun u => allocated (Db.nextId d) (UserRow.id u)) (Db.users d);
    tokens_unique : NoDup (map RefreshTokenRow.token (Db.refreshTokens d));
    token_ids_unique : NoDup (map RefreshTokenRow.id (Db.refreshTokens d));
    token_ids_allocated :
      Forall (fun r => allocated (Db.nextId d) (RefreshTokenRow.id r))
             (Db.refreshTokens d) }.

(** A request keeps the invariant. *)
Definition preserves {A} (m : M A) : Prop :=
  forall d, db_ok d -> db_ok (database (m d)).

(** The rows a list of writes inserted into the refresh-token table. *)
Fixpoint persisted (ws : list StoreOp) : list RefreshTokenRow.t :=
  match ws with
  | [] => []
  | RefreshTokenCreate r :: ws' => r :: persisted ws'
  | _ :: ws' => persisted ws'
  end.

Definition isCreate (w : StoreOp) : bool :=
  match w with RefreshTokenCreate _ => true | _ => false end.

Definition isDelete (w : StoreOp) : bool :=
  match w with
  | RefreshTokenDelete _ | RefreshTokenDeleteMany _ => true
  | _ => false
  end.

(** Some write satisfying [p] comes before some write satisfying [q]. *)
Fixpoint occursBefore (p q : StoreOp -> bool) (ws : list StoreOp) : bool :=
  match ws with
  | [] => false
  | w :: ws' => (p w && existsb q ws') || occursBefore p q ws'
  end.

(** The Token Signer assumption behind "the other secret": different keys
    never produce the same tag for a message. *)
Definition keySeparating (mac : string -> string -> string) : Prop :=
  forall key1 key2 message, key1 <> key2 -> mac key1 message <> mac key2 message.

(* ================================================================== *)
(** ** What the requests throw, sign and insert *)

(** The three [ServiceError]s of registration, login and refresh.
    [refreshToken] puts the library error it caught, if any, in [code]. *)
Definition userAlreadyExists : Thrown :=
IsServiceError (createServiceResponse "User already exists" 409 None None).

Definition invalidEmailOrPassword : Thrown :=
IsServiceError
  (createServiceResponse "Invalid email or password" 401 None None).

Definition invalidRefreshToken (code : option LibError) : Thrown :=
IsServiceError (createServiceError "Invalid refresh token" 401 code None).

(** Seven days in milliseconds. *)
Definition sevenDays : Z := 604800000.

(** The row [generateTokens] inserts, and the database with it. *)
Definition mintedRow (zone : Zone) (d : Db.t) (now : Z)
  (userId token : string) : RefreshTokenRow.t :=
RefreshTokenRow.mk (Prisma.genId (Db.nextId d)) userId token
                   (Date_setDate_plus zone now 7).

Definition withToken (d : Db.t) (r : RefreshTokenRow.t) : Db.t :=
Db.mk (Db.users d) (Db.refreshTokens d ++ [r]) (S (Db.nextId d)).

Definition withUser (d : Db.t) (u : UserRow.t) : Db.t :=
Db.mk (Db.users d ++ [u]) (Db.refreshTokens d) (S (Db.nextId d)).

(** The refresh-token rows other than the one with this id. *)
Definition withoutId (id : string) (l : list RefreshTokenRow.t)
  : list RefreshTokenRow.t :=
filter (fun r => negb (String.eqb (RefreshTokenRow.id r) id)) l.

Section Signatures.

Variable jwt_sign : Payload.t -> string -> string -> Z -> option string.
Variable bcrypt_hash : string -> Z -> string -> string.
Variable cfg : Config.t.

(** The two signatures [generateTokens] asks for. *)
Definition signedAccess (now : Z) (userId email : string) : option string :=
jwt_sign (Payload.mk userId email) (Config.jwtSecret cfg)
         (Config.jwtExpiresIn cfg) now.

Definition signedRefresh (now : Z) (userId email : string) : option string :=
jwt_sign (Payload.mk userId email) (Config.jwtRefreshSecret cfg)
         (Config.jwtRefreshExpiresIn cfg) now.

(** The row [register] inserts into the user table. *)
Definition registeredUser (d : Db.t) (now : Z) (salt email password : string)
  : UserRow.t :=
UserRow.mk (Prisma.genId (Db.nextId d)) email
           (bcrypt_hash password (Config.bcryptRounds cfg) salt) now now.

End Signatures.

(** The requests a client can send, and the database after a sequence
    of them served from the empty store. *)
Inductive Request : Type :=
| Register (now : Z) (salt email password : string)
| Login (now : Z) (email password : string)
| Refresh (now : Z) (token : string)
| Logout (token : string)
| Validate (now : Z) (token : string)
| GetUser (userId : string)
| DeleteUser (userId : string).

Section Sessions.

Variable jwt_sign : Payload.t -> string -> string -> Z -> option string.
Variable jwt_verify : string -> string -> Z -> option JWTPayload.t.
Variable bcrypt_hash : string -> Z -> string -> string.
Variable bcrypt_compare : string -> string -> bool.
Variable cfg : Config.t.
Variable localTZA : Zone.

Definition serve (d : Db.t) (request : Request) : Db.t :=
match request with
| Register now salt email password =>
    database (AuthService.register jwt_sign bcrypt_hash cfg localTZA now salt
                                   email password d)
| Login now email password =>
    database (AuthService.login jwt_sign bcrypt_compare cfg localTZA now
                                email password d)
| Refresh now token =>
    database (AuthService.refreshToken jwt_sign jwt_verify cfg localTZA now token d)
| Logout token => database (AuthService.logout token d)
| Validate now token =>
    database (AuthService.validateToken jwt_verify cfg now token d)
| GetUser userId => database (AuthService.getUserById userId d)
| DeleteUser userId => database (AuthService.deleteUser userId d)
end.

Definition replay (requests : list Request) : Db.t :=
fold_left serve requests Db.empty.

End Sessions.

(** The zone has the same offset at [now] and [n] days later on the
    local calendar. *)
Definition steadyOffset (zone : Zone) (now n : Z) : Prop :=
zone (LocalTime zone now + n * msPerDay) false = zone now true.

(** A request that returns a token pair has inserted exactly one
    refresh-token record: it carries the returned refresh token, it is in
    the store, and it expires seven calendar days after [now] in the
    zone of the process, which is [now] plus seven days when the offset
    of the zone is the same at both ends. *)
Definition persistsSevenCalendarDays
  (zone : Zone) (now : Z) (run : Outcome AuthTokens.t * Db.t * list StoreOp)
  : Prop :=
forall tokens d' ws,
  run = (Returned tokens, d', ws) ->
  exists r,
    persisted ws = [r] /\
    In r (Db.refreshTokens d') /\
    RefreshTokenRow.token r = AuthTokens.refreshToken tokens /\
    RefreshTokenRow.expiresAt r = Date_setDate_plus zone now 7 /\
    (steadyOffset zone now 7 ->
     RefreshTokenRow.expiresAt r = now + sevenDays).

(* ================================================================== *)
(** ** The constructor of [AuthService] *)

Module Constructor.

(** [process.env]: a variable is a string or undefined. *)
Definition Env : Type := string -> option string.

(** Truthiness of a [string | undefined]: undefined and the empty string
    are falsy. *)
Definition truthy (v : option string) : bool :=
  match v with
  | Some s => negb (String.eqb s "")
  | None => false
  end.

(** [v || fallback] *)
Definition orElse (v : option string) (fallback : string) : string :=
  if truthy v then
    match v with
    | Some s => s
    | None => fallback
    end
  else fallback.

(** The private fields after the assignments.  The two secrets are read
    with a non-null assertion and may still be undefined; [bcryptRounds]
    is a number that may be NaN. *)
Record Fields := mkFields
  { jwtSecret : option string;
    jwtRefreshSecret : option string;
    jwtExpiresIn : string;
    jwtRefreshExpiresIn : string;
    bcryptRounds : option Z }.

Inductive Constructed : Type :=
| Built (fields : Fields)
| ThrewError (message : string).

Section WithParseInt.

(** [parseInt(s, 10)], nothing for NaN. *)
Variable parseInt10 : string -> option Z.

(** [constructor()] *)
Definition construct (env : Env) : Constructed :=
  let fields :=
    mkFields (env "JWT_SECRET")
             (env "JWT_REFRESH_SECRET")
             (orElse (env "JWT_EXPIRES_IN") "15m")
             (orElse (env "JWT_REFRESH_EXPIRES_IN") "7d")
             (parseInt10 (orElse (env "BCRYPT_ROUNDS") "10")) in
  if negb (truthy (jwtSecret fields))
     || negb (truthy (jwtRefreshSecret fields))
  then ThrewError "JWT secrets are not defined in environment variables"
  else Built fields.

End WithParseInt.

(** The fields as the methods read them, when the secrets are strings and
    the number of rounds is a number. *)
Definition config (fields : Fields) : option Config.t :=
  match jwtSecret fields, jwtRefreshSecret fields, bcryptRounds fields with
  | Some secret, Some refreshSecret, Some rounds =>
      Some (Config.mk secret refreshSecret (jwtExpiresIn fields)
                      (jwtRefreshExpiresIn fields) rounds)
  | _, _, _ => None
  end.

End Constructor.

(* ================================================================== *)
(** ** shared/middleware: [validateRequest] *)

Module Middleware.

(** One entry of [error.details]: the path of the offending value (its
    segments already rendered as strings, as [join] renders them) and the
    message. *)
Record Detail := mkDetail { path : list string; message : string }.

(** [detail.path.join(".")] *)
Definition fieldOf (detail : Detail) : string :=
  String.concat "." (path detail).

(** The object [errors: Record<string, string[]>]: its own properties,
    each name once, listed as they were added.  Only what is read under
    a name matters below, not the order in which the names are
    enumerated. *)
Definition Errors : Type := list (string * list string).

(** The names every object literal inherits from [Object.prototype].
    Read on [errors] they give the inherited member, which is truthy and
    has no [push]. *)
Definition objectPrototypeNames : list string :=
  [ "constructor"; "__proto__"; "hasOwnProperty"; "isPrototypeOf";
    "propertyIsEnumerable"; "toLocaleString"; "toString"; "valueOf";
    "__defineGetter__"; "__defineSetter__";
    "__lookupGetter__"; "__lookupSetter__" ].

Definition inherited (field : string) : bool :=
  existsb (String.eqb field) objectPrototypeNames.

(** [errors[field]] on an own property. *)
Fixpoint get (field : string) (errors : Errors) : option (list string) :=
  match errors with
  | [] => None
  | (key, messages) :: rest =>
      if String.eqb key field then Some messages else get field rest
  end.

(** [errors[field] = messages], also the effect of mutating the array
    that [errors[field]] holds. *)
Fixpoint set (field : string) (messages : list string) (errors : Errors)
  : Errors :=
  match errors with
  | [] => [(field, messages)]
  | (key, old) :: rest =>
      if String.eqb key field then (key, messages) :: rest
      else (key, old) :: set field messages rest
  end.

(** The body of the [forEach] callback; nothing when it throws the
    TypeError of calling a [push] that is not there. *)
Definition addDetail (errors : Errors) (detail : Detail) : option Errors :=
  let field := fieldOf detail in
  if inherited field then None
  else
    let errors1 :=
      match get field errors with
      | None => set field [] errors
      | Some _ => errors
      end in
    match get field errors1 with
    | Some messages => Some (set field (messages ++ [message detail]) errors1)
    | None => None
    end.

(** [error.details.forEach(...)], stopped by the first throw. *)
Fixpoint forEach (details : list Detail) (errors : Errors) : option Errors :=
  match details with
  | [] => Some errors
  | detail :: details' =>
      match addDetail errors detail with
      | None => None
      | Some errors' => forEach details' errors'
      end
  end.

(** The JSON body of the 400 response. *)
Record ValidationBody := mkValidationBody
  { success : bool; bodyMessage : string; errors : Errors }.

Inductive Result : Type :=
| CalledNext
| Responded (status : Z) (body : ValidationBody)
| ThrewTypeError.

Section WithSchema.

(** [schema.validate(req.body).error]: nothing when the body is valid,
    else the details of the error. *)
Variable Body : Type.
Variable validate : Body -> option (list Detail).

(** [validateRequest(schema)(req, res, next)] *)
Definition validateRequest (body : Body) : Result :=
  match validate body with
  | Some details =>
      match forEach details [] with
      | Some errors =>
          Responded 400 (mkValidationBody false "Validation error" errors)
      | None => ThrewTypeError
      end
  | None => CalledNext
  end.

End WithSchema.

(** The messages reported for a field, in the order of the details. *)
Definition messagesFor (field : string) (details : list Detail)
  : list string :=
  map message (filter (fun d => String.eqb (fieldOf d) field) details).

(** The number of messages an [errors] object holds. *)
Definition total (errors : Errors) : nat :=
  list_sum (map (fun entry => length (snd entry)) errors).

End Middleware.

(** The requests that write to the user table. *)
Definition writesUsers (request : Request) : bool :=
  match request with
  | Register _ _ _ _ | DeleteUser _ => true
  | _ => false
  end.

(** The request deletes the user with this id. *)
Definition deletesUser (id : string) (request : Request) : bool :=
  match request with
  | DeleteUser userId => String.eqb userId id
  | _ => false
  end.

(** A configuration whose access life time is no time span. *)
Module Faulty.

Definition cfg : Config.t :=
  Config.mk "access-secret" "refresh-secret" "fifteen minutes" "7d" 10.

Definition register :=
  AuthService.register Std.jwt_sign Bcrypt.hash cfg Std.zone.

End Faulty.

(** An environment with the two secrets and nothing else; a schema whose
    verdict is the request body itself; two verdicts. *)
Module Sample.

Definition env : Constructor.Env :=
  fun name =>
    if String.eqb name "JWT_SECRET" then Some "access-secret"
    else if String.eqb name "JWT_REFRESH_SECRET" then Some "refresh-secret"
    else None.

Definition envWithoutRefreshSecret : Constructor.Env :=
  fun name =>
    if String.eqb name "JWT_SECRET" then Some "access-secret"
    else if String.eqb name "JWT_REFRESH_SECRET" then Some ""
    else None.

Definition verdict (body : option (list Middleware.Detail))
  : option (list Middleware.Detail) := body.

Definition signupDetails : list Middleware.Detail :=
  [ Middleware.mkDetail ["email"] "email is required";
    Middleware.mkDetail ["password"] "password is too short";
    Middleware.mkDetail ["profile"; "age"] "age must be a number";
    Middleware.mkDetail ["password"] "password needs a digit" ].

Definition prototypeDetails : list Middleware.Detail :=
  [ Middleware.mkDetail ["email"] "email is required";
    Middleware.mkDetail ["constructor"] "constructor is not allowed" ].

(** New York in the autumn of 2023: four hours behind UTC until the
    clocks were set back on 5 November at 06:00 UTC, five hours behind
    from then on.  A local time of the hour that occurred twice is read
    with the earlier offset. *)
Definition clocksSetBack : Z := 1699164000000.

Definition newYork : Zone :=
  fun t isUTC =>
    if isUTC then
      if t <? clocksSetBack then -4 * 3600000 else -5 * 3600000
    else
      if t <? clocksSetBack + -4 * 3600000 then -4 * 3600000
      else -5 * 3600000.

(** 1 November 2023, 00:00 UTC. *)
Definition firstOfNovember : Z := 1698796800000.

End Sample.

(* ================================================================== *)
(** * Lemmas *)

(** ** Strings, numerals, fields *)

Lemma getField_putField (field rest : string) :
  getField (putField field rest) = Some (field, rest).
Proof.
  induction field as [|c field IH]; simpl.
  - reflexivity.
  - now rewrite IH.
Qed.

Lemma readZ_showZ (z : Z) : readZ (showZ z) = Some z.
Proof.
  unfold readZ, showZ.
  rewrite NilEmpty.isi. simpl. now rewrite DecimalZ.of_to.
Qed.

Lemma showZ_inj (x y : Z) : showZ x = showZ y -> x = y.
Proof.
  intros E. apply (f_equal readZ) in E.
  rewrite !readZ_showZ in E. congruence.
Qed.

Lemma genId_inj (n m : nat) : Prisma.genId n = Prisma.genId m -> n = m.
Proof.
  unfold Prisma.genId. intros E. apply showZ_inj in E. lia.
Qed.

Lemma allocated_mono (n m : nat) (id : string) :
  (n <= m)%nat -> allocated n id -> allocated m id.
Proof.
  intros L [k [Hk ->]]. exists k. split; [lia | reflexivity].
Qed.

Lemma allocated_not_next (n : nat) (id : string) :
  allocated n id -> id <> Prisma.genId n.
Proof.
  intros [k [Hk ->]] E. apply genId_inj in E. lia.
Qed.

(** ** Dates *)

Lemma setDate_plus_steady (zone : Zone) (now : Z) :
  steadyOffset zone now 7 -> Date_setDate_plus zone now 7 = now + sevenDays.
Proof.
  unfold steadyOffset, Date_setDate_plus, UTC, LocalTime, sevenDays, msPerDay.
  intros E. rewrite E. lia.
Qed.

Lemma fixedZone_steady (offset now n : Z) :
  steadyOffset (fixedZone offset) now n.
Proof. reflexivity. Qed.

(** ** Lists *)

Lemma find_snoc {A} (p : A -> bool) (l : list A) (x : A) :
  find p (l ++ [x]) =
  match find p l with
  | Some y => Some y
  | None => if p x then Some x else None
  end.
Proof.
  induction l as [|a l IH]; simpl.
  - reflexivity.
  - destruct (p a); [reflexivity | exact IH].
Qed.

Lemma find_None_In {A} (p : A -> bool) (l : list A) (x : A) :
  find p l = None -> In x l -> p x = false.
Proof.
  intros F I. exact (find_none p l F x I).
Qed.

Lemma find_In_not_None {A} (p : A -> bool) (l : list A) (x : A) :
  In x l -> p x = true -> find p l <> None.
Proof.
  intros I P F. rewrite (find_None_In p l x F I) in P. discriminate.
Qed.

(** A column that holds distinct values still does after rows are
    dropped. *)
Lemma distinct_after_filter {Row Key} (keep : Row -> bool)
      (column : Row -> Key) (rows : list Row) :
  NoDup (map column rows) -> NoDup (map column (filter keep rows)).
Proof.
  intros N. induction rows as [|row rows IH]; simpl in *.
  - constructor.
  - apply NoDup_cons_iff in N. destruct N as [Hn N].
    destruct (keep row); simpl; [apply NoDup_cons|]; auto.
    intros I. apply Hn. apply in_map_iff in I. destruct I as [x [E I]].
    apply filter_In in I. apply in_map_iff. exists x. tauto.
Qed.

Lemma NoDup_map_snoc {A B} (f : A -> B) (l : list A) (x : A) :
  NoDup (map f l) -> ~ In (f x) (map f l) -> NoDup (map f (l ++ [x])).
Proof.
  intros N I. rewrite map_app. simpl.
  apply NoDup_app.
  - exact N.
  - repeat constructor. simpl. tauto.
  - intros b Hb [<- | []]. exact (I Hb).
Qed.

Lemma NoDup_map_eq {A B} (f : A -> B) (l : list A) (x y : A) :
  NoDup (map f l) -> In x l -> In y l -> f x = f y -> x = y.
Proof.
  induction l as [|a l IH]; simpl; intros N Ix Iy E.
  - contradiction.
  - inversion N as [|? ? Hn N']; subst.
    destruct Ix as [-> | Ix], Iy as [-> | Iy].
    + reflexivity.
    + exfalso. apply Hn. rewrite E. now apply in_map.
    + exfalso. apply Hn. rewrite <- E. now apply in_map.
    + now apply IH.
Qed.

(** ** Requests that keep the invariant *)

Lemma preserves_ret {A} (a : A) : preserves (ret a).
Proof. intros d H. exact H. Qed.

Lemma preserves_throw {A} (t : Thrown) : preserves (@throw A t).
Proof. intros d H. exact H. Qed.

Lemma preserves_orThrow {A} (e : LibError) (r : option A) :
  preserves (orThrow e r).
Proof. destruct r; [apply preserves_ret | apply preserves_throw]. Qed.

Lemma preserves_bind {A B} (m : M A) (f : A -> M B) :
  preserves m -> (forall a, preserves (f a)) -> preserves (bind m f).
Proof.
  intros Hm Hf d H. specialize (Hm d H).
  unfold database, bind in *.
  destruct (m d) as [[[a | t] d1] w1]; simpl in *.
  - specialize (Hf a d1 Hm). unfold database in Hf.
    destruct (f a d1) as [[o d2] w2]. exact Hf.
  - exact Hm.
Qed.

Lemma preserves_try_catch {A} (m : M A) (h : Thrown -> M A) :
  preserves m -> (forall t, preserves (h t)) -> preserves (try_catch m h).
Proof.
  intros Hm Hh d H. specialize (Hm d H).
  unfold database, try_catch in *.
  destruct (m d) as [[[a | t] d1] w1]; simpl in *.
  - exact Hm.
  - specialize (Hh t d1 Hm). unfold database in Hh.
    destruct (h t d1) as [[o d2] w2]. exact Hh.
Qed.

Lemma Forall_filter_keep {A} (P : A -> Prop) (p : A -> bool) (l : list A) :
  Forall P l -> Forall P (filter p l).
Proof.
  rewrite !Forall_forall. intros H x I. apply filter_In in I. apply H, I.
Qed.

Lemma db_ok_filter_tokens (p : RefreshTokenRow.t -> bool) (d : Db.t) :
  db_ok d ->
  db_ok (Db.mk (Db.users d) (filter p (Db.refreshTokens d)) (Db.nextId d)).
Proof.
  intros [E U UA T I IA]. constructor; simpl; auto.
  - now apply distinct_after_filter.
  - now apply distinct_after_filter.
  - now apply Forall_filter_keep.
Qed.

Lemma db_ok_filter_both (p : UserRow.t -> bool)
      (q : RefreshTokenRow.t -> bool) (d : Db.t) :
  db_ok d ->
  db_ok (Db.mk (filter p (Db.users d)) (filter q (Db.refreshTokens d))
               (Db.nextId d)).
Proof.
  intros [E U UA T I IA]. constructor; simpl;
    auto using distinct_after_filter, Forall_filter_keep.
Qed.

Lemma db_ok_insert_token (d : Db.t) (userId token : string) (expiresAt : Z) :
  db_ok d ->
  Prisma.findRefreshToken token d = None ->
  db_ok (Db.mk (Db.users d)
               (Db.refreshTokens d ++
                [RefreshTokenRow.mk (Prisma.genId (Db.nextId d)) userId token
                                    expiresAt])
               (S (Db.nextId d))).
Proof.
  intros [E U UA T I IA] F. constructor; simpl; auto.
  - eapply Forall_impl; [|exact UA]. intros u. apply allocated_mono. lia.
  - apply NoDup_map_snoc; [exact T|]. simpl. intros Hin.
    apply in_map_iff in Hin. destruct Hin as [r [Er Ir]].
    pose proof (find_None_In _ _ r F Ir) as Hf. simpl in Hf.
    rewrite Er, String.eqb_refl in Hf. discriminate.
  - apply NoDup_map_snoc; [exact I|]. simpl. intros Hin.
    apply in_map_iff in Hin. destruct Hin as [r [Er Ir]].
    rewrite Forall_forall in IA.
    exact (allocated_not_next _ _ (IA r Ir) Er).
  - apply Forall_app. split.
    + eapply Forall_impl; [|exact IA]. intros r. apply allocated_mono. lia.
    + repeat constructor. simpl. exists (Db.nextId d). split; [lia | reflexivity].
Qed.

Lemma db_ok_insert_user (d : Db.t) (email password : string) (now : Z) :
  db_ok d ->
  Prisma.findUserByEmail email d = None ->
  db_ok (Db.mk (Db.users d ++
                [UserRow.mk (Prisma.genId (Db.nextId d)) email password
                            now now])
               (Db.refreshTokens d)
               (S (Db.nextId d))).
Proof.
  intros [E U UA T I IA] F. constructor; simpl; auto.
  - apply NoDup_map_snoc; [exact E|]. simpl. intros Hin.
    apply in_map_iff in Hin. destruct Hin as [u [Eu Iu]].
    pose proof (find_None_In _ _ u F Iu) as Hf. simpl in Hf.
    rewrite Eu, String.eqb_refl in Hf. discriminate.
  - apply NoDup_map_snoc; [exact U|]. simpl. intros Hin.
    apply in_map_iff in Hin. destruct Hin as [u [Eu Iu]].
    rewrite Forall_forall in UA.
    exact (allocated_not_next _ _ (UA u Iu) Eu).
  - apply Forall_app. split.
    + eapply Forall_impl; [|exact UA]. intros u. apply allocated_mono. lia.
    + repeat constructor. simpl. exists (Db.nextId d). split; [lia | reflexivity].
  - eapply Forall_impl; [|exact IA]. intros r. apply allocated_mono. lia.
Qed.

Lemma preserves_user_findUnique_email (email : string) :
  preserves (Prisma.user_findUnique_email email).
Proof. intros d H. exact H. Qed.

Lemma preserves_user_findUnique_id (id : string) :
  preserves (Prisma.user_findUnique_id id).
Proof. intros d H. exact H. Qed.

Lemma preserves_user_findUnique_id_select (id : string) :
  preserves (Prisma.user_findUnique_id_select id).
Proof. intros d H. exact H. Qed.

Lemma preserves_refreshToken_findUnique (token : string) :
  preserves (Prisma.refreshToken_findUnique_include_user token).
Proof. intros d H. exact H. Qed.

Lemma preserves_user_create (now : Z) (email password : string) :
  preserves (Prisma.user_create now email password).
Proof.
  intros d H. unfold Prisma.user_create, database.
  destruct (Prisma.findUserByEmail email d) eqn:F; simpl.
  - exact H.
  - now apply db_ok_insert_user.
Qed.

Lemma preserves_refreshToken_create (userId token : string) (expiresAt : Z) :
  preserves (Prisma.refreshToken_create userId token expiresAt).
Proof.
  intros d H. unfold Prisma.refreshToken_create, database.
  destruct (Prisma.findRefreshToken token d) eqn:F; simpl.
  - exact H.
  - now apply db_ok_insert_token.
Qed.

Lemma preserves_refreshToken_delete (id : string) :
  preserves (Prisma.refreshToken_delete id).
Proof.
  intros d H. unfold Prisma.refreshToken_delete, database.
  destruct (Prisma.findRefreshTokenById id d); simpl.
  - now apply db_ok_filter_tokens.
  - exact H.
Qed.

Lemma preserves_user_delete (id : string) :
  preserves (Prisma.user_delete id).
Proof.
  intros d H. unfold Prisma.user_delete, database.
  destruct (Prisma.findUserById id d); simpl.
  - now apply db_ok_filter_both.
  - exact H.
Qed.

Lemma preserves_refreshToken_deleteMany (token : string) :
  preserves (Prisma.refreshToken_deleteMany token).
Proof.
  intros d H. unfold Prisma.refreshToken_deleteMany, database. simpl.
  now apply db_ok_filter_tokens.
Qed.

Create HintDb keeps.
#[local] Hint Resolve
  preserves_ret preserves_throw preserves_orThrow
  preserves_user_findUnique_email preserves_user_findUnique_id
  preserves_user_findUnique_id_select preserves_refreshToken_findUnique
  preserves_user_create preserves_user_delete preserves_refreshToken_create
  preserves_refreshToken_delete preserves_refreshToken_deleteMany : keeps.

Ltac keeps :=
  repeat first
    [ apply preserves_bind; [| intros ? ]
    | apply preserves_try_catch; [| intros ? ]
    | match goal with
      | |- preserves (match ?x with _ => _ end) => destruct x
      | |- preserves (if ?b then _ else _) => destruct b
      end
    | solve [ auto with keeps ] ].

Section Invariant.

Variable jwt_sign : Payload.t -> string -> string -> Z -> option string.
Variable jwt_verify : string -> string -> Z -> option JWTPayload.t.
Variable bcrypt_hash : string -> Z -> string -> string.
Variable bcrypt_compare : string -> string -> bool.
Variable cfg : Config.t.
Variable localTZA : Zone.

Lemma preserves_generateTokens now userId email :
  preserves (AuthService.generateTokens jwt_sign cfg localTZA now userId email).
Proof. unfold AuthService.generateTokens. keeps. Qed.

Hint Resolve preserves_generateTokens : keeps.

Lemma preserves_register now salt email password :
  preserves (AuthService.register jwt_sign bcrypt_hash cfg localTZA now salt
                                  email password).
Proof. unfold AuthService.register. keeps. Qed.

Lemma preserves_login now email password :
  preserves (AuthService.login jwt_sign bcrypt_compare cfg localTZA now
                               email password).
Proof. unfold AuthService.login. keeps. Qed.

Lemma preserves_refreshToken now token :
  preserves (AuthService.refreshToken jwt_sign jwt_verify cfg localTZA now token).
Proof. unfold AuthService.refreshToken. keeps. Qed.

Lemma preserves_logout token : preserves (AuthService.logout token).
Proof. unfold AuthService.logout. keeps. Qed.

Lemma preserves_validateToken now token :
  preserves (AuthService.validateToken jwt_verify cfg now token).
Proof. unfold AuthService.validateToken. keeps. Qed.

Lemma preserves_getUserById userId :
  preserves (AuthService.getUserById userId).
Proof. unfold AuthService.getUserById. keeps. Qed.

Lemma preserves_deleteUser userId :
  preserves (AuthService.deleteUser userId).
Proof. unfold AuthService.deleteUser. keeps. Qed.

End Invariant.

Lemma db_ok_empty : db_ok Db.empty.
Proof. constructor; simpl; constructor. Qed.

(** Every database the service can reach from the empty store satisfies
    the invariant. *)
Lemma replay_ok jwt_sign jwt_verify bcrypt_hash bcrypt_compare cfg localTZA
      requests :
  db_ok (replay jwt_sign jwt_verify bcrypt_hash bcrypt_compare cfg localTZA
                requests).
Proof.
  unfold replay. generalize db_ok_empty. generalize Db.empty.
  induction requests as [|request requests IH]; intros d OK; simpl.
  - exact OK.
  - apply IH. destruct request; simpl.
    + now apply preserves_register.
    + now apply preserves_login.
    + now apply preserves_refreshToken.
    + now apply preserves_logout.
    + now apply preserves_validateToken.
    + now apply preserves_getUserById.
    + now apply preserves_deleteUser.
Qed.

Lemma find_all_false {A} (p : A -> bool) (l : list A) :
  (forall x, In x l -> p x = false) -> find p l = None.
Proof.
  induction l as [|a l IH]; simpl; intros H.
  - reflexivity.
  - rewrite (H a (or_introl eq_refl)). apply IH. intros x I. apply H. now right.
Qed.

Lemma filter_all_true {A} (p : A -> bool) (l : list A) :
  (forall x, In x l -> p x = true) -> filter p l = l.
Proof.
  induction l as [|a l IH]; simpl; intros H.
  - reflexivity.
  - rewrite (H a (or_introl eq_refl)). f_equal. apply IH.
    intros x I. apply H. now right.
Qed.

Lemma filter_idem {A} (p : A -> bool) (l : list A) :
  filter p (filter p l) = filter p l.
Proof.
  apply filter_all_true. intros x I. apply filter_In in I. tauto.
Qed.

(** ** The refresh-token table under rotation *)

Lemma findRefreshToken_Some token d old :
  Prisma.findRefreshToken token d = Some old ->
  In old (Db.refreshTokens d) /\ RefreshTokenRow.token old = token.
Proof.
  unfold Prisma.findRefreshToken. intros F. apply find_some in F.
  destruct F as [I E]. apply String.eqb_eq in E. tauto.
Qed.

Lemma rotated_keeps_new (d : Db.t) (old new : RefreshTokenRow.t) :
  db_ok d ->
  In old (Db.refreshTokens d) ->
  RefreshTokenRow.id new = Prisma.genId (Db.nextId d) ->
  withoutId (RefreshTokenRow.id old) (Db.refreshTokens d ++ [new]) =
  withoutId (RefreshTokenRow.id old) (Db.refreshTokens d) ++ [new].
Proof.
  intros OK I E. unfold withoutId. rewrite filter_app. f_equal. simpl.
  destruct (String.eqb_spec (RefreshTokenRow.id new) (RefreshTokenRow.id old))
    as [Eq|Ne]; [|reflexivity].
  exfalso. pose proof (token_ids_allocated d OK) as A.
  rewrite Forall_forall in A. apply (allocated_not_next _ _ (A old I)).
  congruence.
Qed.

Lemma rotated_forgets_old (d : Db.t) (token : string)
      (old new : RefreshTokenRow.t) :
  db_ok d ->
  Prisma.findRefreshToken token d = Some old ->
  Prisma.findRefreshToken (RefreshTokenRow.token new) d = None ->
  find (fun r => String.eqb (RefreshTokenRow.token r) token)
       (withoutId (RefreshTokenRow.id old) (Db.refreshTokens d ++ [new]))
  = None.
Proof.
  intros OK F C. destruct (findRefreshToken_Some _ _ _ F) as [Iold Eold].
  apply find_all_false. intros x Ix. unfold withoutId in Ix.
  apply filter_In in Ix. destruct Ix as [Ix Hx].
  apply String.eqb_neq. intros Ex.
  apply in_app_or in Ix. destruct Ix as [Ix | [<- | []]].
  - assert (x = old).
    { apply (NoDup_map_eq RefreshTokenRow.token (Db.refreshTokens d));
        auto using tokens_unique. congruence. }
    subst x. rewrite String.eqb_refl in Hx. discriminate.
  - rewrite Ex in C. congruence.
Qed.

(* ================================================================== *)
(** * The token lifecycle *)

(** ** Minting a pair *)

Section Minting.

Variable jwt_sign : Payload.t -> string -> string -> Z -> option string.
Variable cfg : Config.t.
Variable localTZA : Zone.

Local Notation generateTokens := (AuthService.generateTokens jwt_sign cfg localTZA).

Lemma generateTokens_run now userId email d a r :
  signedAccess jwt_sign cfg now userId email = Some a ->
  signedRefresh jwt_sign cfg now userId email = Some r ->
  generateTokens now userId email d =
  match Prisma.findRefreshToken r d with
  | Some _ => (Threw (Other (PrismaClientKnownRequestError "P2002")), d, [])
  | None =>
      (Returned (AuthTokens.mk a r), withToken d (mintedRow localTZA d now userId r),
       [RefreshTokenCreate (mintedRow localTZA d now userId r)])
  end.
Proof.
  unfold AuthService.generateTokens, signedAccess, signedRefresh, bind,
    orThrow, ret, throw, Prisma.refreshToken_create, Date_setDate_plus.
  intros -> ->. simpl.
  destruct (Prisma.findRefreshToken r d); reflexivity.
Qed.

Lemma generateTokens_returned now userId email d tokens d' ws :
  generateTokens now userId email d = (Returned tokens, d', ws) ->
  signedAccess jwt_sign cfg now userId email
    = Some (AuthTokens.accessToken tokens) /\
  signedRefresh jwt_sign cfg now userId email
    = Some (AuthTokens.refreshToken tokens) /\
  Prisma.findRefreshToken (AuthTokens.refreshToken tokens) d = None /\
  d' = withToken d
         (mintedRow localTZA d now userId (AuthTokens.refreshToken tokens)) /\
  ws = [RefreshTokenCreate
          (mintedRow localTZA d now userId (AuthTokens.refreshToken tokens))].
Proof.
  unfold AuthService.generateTokens, signedAccess, signedRefresh, bind,
    orThrow, ret, throw, Prisma.refreshToken_create, Date_setDate_plus.
  destruct (jwt_sign _ (Config.jwtSecret cfg) _ _) as [a|]; simpl;
    [|discriminate].
  destruct (jwt_sign _ (Config.jwtRefreshSecret cfg) _ _) as [r|]; simpl;
    [|discriminate].
  destruct (Prisma.findRefreshToken r d) eqn:F; simpl; [discriminate|].
  intros E. inversion E; subst; clear E. simpl.
  repeat split; auto.
Qed.

Lemma generateTokens_threw now userId email d t d' ws :
  generateTokens now userId email d = (Threw t, d', ws) ->
  d' = d /\ ws = [] /\ exists e, t = Other e.
Proof.
  unfold AuthService.generateTokens, bind, orThrow, ret, throw,
    Prisma.refreshToken_create.
  destruct (jwt_sign _ (Config.jwtSecret cfg) _ _) as [a|]; simpl.
  2:{ intros E; inversion E; eauto. }
  destruct (jwt_sign _ (Config.jwtRefreshSecret cfg) _ _) as [r|]; simpl.
  2:{ intros E; inversion E; eauto. }
  destruct (Prisma.findRefreshToken r d) eqn:F; simpl.
  - intros E; inversion E; eauto.
  - discriminate.
Qed.

End Minting.

(** ** Rotation *)

Section Rotation.

Variable jwt_sign : Payload.t -> string -> string -> Z -> option string.
Variable jwt_verify : string -> string -> Z -> option JWTPayload.t.
Variable cfg : Config.t.
Variable localTZA : Zone.

Local Notation refreshToken :=
  (AuthService.refreshToken jwt_sign jwt_verify cfg localTZA).

(** [refreshToken] step by step: verify, look the record up, check its
    expiry, follow it to its user, sign twice, insert, delete. *)
Lemma refreshToken_run now token d :
  refreshToken now token d =
  match jwt_verify token (Config.jwtRefreshSecret cfg) now with
  | None => (Threw (invalidRefreshToken (Some JsonWebTokenError)), d, [])
  | Some _ =>
      match Prisma.findRefreshToken token d with
      | None => (Threw (invalidRefreshToken None), d, [])
      | Some old =>
          if RefreshTokenRow.expiresAt old <? now then
            (Threw (invalidRefreshToken None), d, [])
          else
            match Prisma.findUserById (RefreshTokenRow.userId old) d with
            | None => (Threw (invalidRefreshToken (Some TypeError)), d, [])
            | Some user =>
                let userId := UserRow.id user in
                let email := UserRow.email user in
                match signedAccess jwt_sign cfg now userId email,
                      signedRefresh jwt_sign cfg now userId email with
                | Some a, Some r =>
                    match Prisma.findRefreshToken r d with
                    | Some _ =>
                        (Threw (invalidRefreshToken
                                  (Some (PrismaClientKnownRequestError
                                           "P2002"))), d, [])
                    | None =>
                        let new := mintedRow localTZA d now userId r in
                        (Returned (AuthTokens.mk a r),
                         Db.mk (Db.users d)
                               (withoutId (RefreshTokenRow.id old)
                                          (Db.refreshTokens d ++ [new]))
                               (S (Db.nextId d)),
                         [RefreshTokenCreate new;
                          RefreshTokenDelete (RefreshTokenRow.id old)])
                    end
                | _, _ =>
                    (Threw (invalidRefreshToken (Some JsonWebTokenError)),
                     d, [])
                end
            end
      end
  end.
Proof.
  unfold AuthService.refreshToken, try_catch.
  unfold bind at 1. unfold orThrow at 1.
  destruct (jwt_verify token (Config.jwtRefreshSecret cfg) now) as [decoded|];
    [|reflexivity].
  unfold ret at 1. unfold bind at 1.
  unfold Prisma.refreshToken_findUnique_include_user.
  destruct (Prisma.findRefreshToken token d) as [old|] eqn:F; simpl;
    [|reflexivity].
  destruct (RefreshTokenRow.expiresAt old <? now); [reflexivity|].
  destruct (Prisma.findUserById (RefreshTokenRow.userId old) d) as [user|];
    [|reflexivity].
  unfold bind at 1.
  destruct (signedAccess jwt_sign cfg now (UserRow.id user)
                         (UserRow.email user)) as [a|] eqn:SA.
  2:{ unfold signedAccess in SA. unfold AuthService.generateTokens, bind,
        orThrow. rewrite SA. reflexivity. }
  destruct (signedRefresh jwt_sign cfg now (UserRow.id user)
                          (UserRow.email user)) as [r|] eqn:SR.
  2:{ unfold signedAccess in SA. unfold signedRefresh in SR.
      unfold AuthService.generateTokens, bind, orThrow.
      rewrite SA. simpl. rewrite SR. reflexivity. }
  rewrite (generateTokens_run jwt_sign cfg localTZA now _ _ d a r SA SR).
  destruct (Prisma.findRefreshToken r d) as [clash|] eqn:C; [reflexivity|].
  unfold bind, Prisma.refreshToken_delete, ret, withToken. simpl.
  assert (I : Prisma.findRefreshTokenById (RefreshTokenRow.id old)
                (Db.mk (Db.users d)
                   (Db.refreshTokens d ++
                    [mintedRow localTZA d now (UserRow.id user) r])
                   (S (Db.nextId d))) <> None).
  { unfold Prisma.findRefreshTokenById. simpl.
    apply find_In_not_None with (x := old).
    - apply in_or_app. left.
      exact (proj1 (findRefreshToken_Some _ _ _ F)).
    - apply String.eqb_refl. }
  destruct (Prisma.findRefreshTokenById _ _) as [found|];
    [reflexivity | contradiction].
Qed.

(** A successful [refreshToken], read backwards. *)
Lemma refreshToken_returned now token d tokens d' ws :
  refreshToken now token d = (Returned tokens, d', ws) ->
  exists old user,
    jwt_verify token (Config.jwtRefreshSecret cfg) now <> None /\
    Prisma.findRefreshToken token d = Some old /\
    Prisma.findUserById (RefreshTokenRow.userId old) d = Some user /\
    signedAccess jwt_sign cfg now (UserRow.id user) (UserRow.email user)
      = Some (AuthTokens.accessToken tokens) /\
    signedRefresh jwt_sign cfg now (UserRow.id user) (UserRow.email user)
      = Some (AuthTokens.refreshToken tokens) /\
    Prisma.findRefreshToken (AuthTokens.refreshToken tokens) d = None /\
    let new := mintedRow localTZA d now (UserRow.id user)
                 (AuthTokens.refreshToken tokens) in
    d' = Db.mk (Db.users d)
               (withoutId (RefreshTokenRow.id old)
                          (Db.refreshTokens d ++ [new]))
               (S (Db.nextId d)) /\
    ws = [RefreshTokenCreate new;
          RefreshTokenDelete (RefreshTokenRow.id old)].
Proof.
  rewrite refreshToken_run.
  destruct (jwt_verify token _ now) as [decoded|] eqn:V; [|discriminate].
  destruct (Prisma.findRefreshToken token d) as [old|] eqn:F; [|discriminate].
  destruct (RefreshTokenRow.expiresAt old <? now); [discriminate|].
  destruct (Prisma.findUserById _ d) as [user|] eqn:U; [|discriminate].
  cbv zeta.
  destruct (signedAccess _ _ now _ _) as [a|] eqn:SA; [|discriminate].
  destruct (signedRefresh _ _ now _ _) as [r|] eqn:SR; [|discriminate].
  destruct (Prisma.findRefreshToken r d) eqn:C; [discriminate|].
  intros E. inversion E; subst; clear E. simpl.
  exists old, user. repeat split; auto. discriminate.
Qed.

(** A failed [refreshToken] wrote nothing. *)
Lemma refreshToken_threw now token d t d' ws :
  refreshToken now token d = (Threw t, d', ws) ->
  d' = d /\ ws = [] /\ exists code, t = invalidRefreshToken code.
Proof.
  rewrite refreshToken_run.
  repeat first
    [ progress cbv zeta
    | match goal with
      | |- context [match ?x with _ => _ end] => destruct x
      end ];
    intros E; inversion E; subst; eauto.
Qed.

(** After a successful [refreshToken] on a well-formed store the new
    record is in the table and the consumed one is not. *)
Lemma refreshToken_rotated now token d tokens d' ws :
  db_ok d ->
  refreshToken now token d = (Returned tokens, d', ws) ->
  exists old user,
    Prisma.findRefreshToken token d = Some old /\
    let new := mintedRow localTZA d now (UserRow.id user)
                 (AuthTokens.refreshToken tokens) in
    ws = [RefreshTokenCreate new;
          RefreshTokenDelete (RefreshTokenRow.id old)] /\
    Db.refreshTokens d' =
      withoutId (RefreshTokenRow.id old) (Db.refreshTokens d) ++ [new] /\
    In new (Db.refreshTokens d') /\
    ~ In old (Db.refreshTokens d').
Proof.
  intros OK R.
  destruct (refreshToken_returned _ _ _ _ _ _ R)
    as (old & user & _ & F & _ & _ & _ & C & Ed & Ew).
  cbv zeta in Ed, Ew.
  destruct (findRefreshToken_Some _ _ _ F) as [Iold _].
  exists old, user. split; [exact F|]. cbv zeta.
  set (new := mintedRow localTZA d now (UserRow.id user)
                (AuthTokens.refreshToken tokens)) in *.
  assert (Et : Db.refreshTokens d' =
               withoutId (RefreshTokenRow.id old) (Db.refreshTokens d)
               ++ [new]).
  { subst d'. simpl. now apply rotated_keeps_new. }
  split; [exact Ew|]. split; [exact Et|]. split.
  - rewrite Et. apply in_or_app. right. now left.
  - rewrite Et. intros I. apply in_app_or in I. destruct I as [I | [E | []]].
    + unfold withoutId in I. apply filter_In in I. destruct I as [_ I].
      rewrite String.eqb_refl in I. discriminate.
    + pose proof (token_ids_allocated d OK) as A.
      rewrite Forall_forall in A.
      apply (allocated_not_next _ _ (A old Iold)). now rewrite <- E.
Qed.

(** C1 (amended).  A successful refresh first signs the new pair and
    inserts the new refresh-token record, and only then deletes the
    consumed record (create, then delete): these are its two writes, in
    this order; afterwards the store holds the new record and no longer
    the consumed one, every other record being untouched. *)
Theorem refreshToken_creates_then_deletes now token d tokens d' ws :
  db_ok d ->
  refreshToken now token d = (Returned tokens, d', ws) ->
  exists old new,
    Prisma.findRefreshToken token d = Some old /\
    RefreshTokenRow.token new = AuthTokens.refreshToken tokens /\
    ws = [RefreshTokenCreate new;
          RefreshTokenDelete (RefreshTokenRow.id old)] /\
    Db.refreshTokens d' =
      withoutId (RefreshTokenRow.id old) (Db.refreshTokens d) ++ [new] /\
    In new (Db.refreshTokens d') /\
    ~ In old (Db.refreshTokens d').
Proof.
  intros OK R.
  destruct (refreshToken_rotated _ _ _ _ _ _ OK R)
    as (old & user & F & Ew & Et & Inew & Iold).
  exists old, (mintedRow localTZA d now (UserRow.id user)
                 (AuthTokens.refreshToken tokens)).
  repeat split; assumption.
Qed.

(** C2.  After [refreshToken] has succeeded on a token string, a second
    [refreshToken] on the same string, at any clock reading, fails with
    the 401 "Invalid refresh token" error (Unauthenticated) and leaves the
    store as it is. *)
Theorem refreshToken_single_use now1 now2 token d tokens d1 ws :
  db_ok d ->
  refreshToken now1 token d = (Returned tokens, d1, ws) ->
  exists e,
    refreshToken now2 token d1 = (Threw (IsServiceError e), d1, []) /\
    kindOf e = Unauthenticated /\
    ServiceError.message e = "Invalid refresh token".
Proof.
  intros OK R.
  destruct (refreshToken_returned _ _ _ _ _ _ R)
    as (old & user & _ & F & _ & _ & _ & C & Ed & _).
  cbv zeta in Ed.
  assert (G : Prisma.findRefreshToken token d1 = None).
  { subst d1. unfold Prisma.findRefreshToken at 1. simpl.
    now apply rotated_forgets_old. }
  rewrite refreshToken_run, G.
  destruct (jwt_verify token _ now2).
  - eexists. split; [reflexivity|]. split; reflexivity.
  - eexists. split; [reflexivity|]. split; reflexivity.
Qed.

End Rotation.

(** ** Registration and login *)

Section Credentials.

Variable jwt_sign : Payload.t -> string -> string -> Z -> option string.
Variable bcrypt_hash : string -> Z -> string -> string.
Variable bcrypt_compare : string -> string -> bool.
Variable cfg : Config.t.
Variable localTZA : Zone.

Local Notation generateTokens := (AuthService.generateTokens jwt_sign cfg localTZA).
Local Notation register := (AuthService.register jwt_sign bcrypt_hash cfg localTZA).
Local Notation login := (AuthService.login jwt_sign bcrypt_compare cfg localTZA).
Local Notation newUser := (registeredUser bcrypt_hash cfg).

Lemma register_run now salt email password d :
  register now salt email password d =
  match Prisma.findUserByEmail email d with
  | Some _ => (Threw userAlreadyExists, d, [])
  | None =>
      let u := newUser d now salt email password in
      match generateTokens now (UserRow.id u) email (withUser d u) with
      | (o, d', ws) => (o, d', UserCreate u :: ws)
      end
  end.
Proof.
  unfold AuthService.register. unfold bind at 1.
  unfold Prisma.user_findUnique_email.
  destruct (Prisma.findUserByEmail email d) eqn:F; [reflexivity|].
  unfold bind at 1. unfold Prisma.user_create. rewrite F.
  unfold registeredUser, withUser. simpl.
  destruct (generateTokens _ _ _ _) as [[[tokens | t] d'] ws]; reflexivity.
Qed.

Lemma login_run now email password d :
  login now email password d =
  match Prisma.findUserByEmail email d with
  | None => (Threw invalidEmailOrPassword, d, [])
  | Some user =>
      if bcrypt_compare password (UserRow.password user) then
        generateTokens now (UserRow.id user) (UserRow.email user) d
      else (Threw invalidEmailOrPassword, d, [])
  end.
Proof.
  unfold AuthService.login. unfold bind at 1.
  unfold Prisma.user_findUnique_email.
  destruct (Prisma.findUserByEmail email d) as [user|]; [|reflexivity].
  destruct (bcrypt_compare password (UserRow.password user)); simpl.
  - destruct (generateTokens _ _ _ d) as [[o d'] ws]. reflexivity.
  - reflexivity.
Qed.

(** A successful [register], read backwards. *)
Lemma register_returned now salt email password d tokens d' ws :
  register now salt email password d = (Returned tokens, d', ws) ->
  let u := newUser d now salt email password in
  let r := mintedRow localTZA (withUser d u) now (UserRow.id u)
             (AuthTokens.refreshToken tokens) in
  Prisma.findUserByEmail email d = None /\
  signedAccess jwt_sign cfg now (UserRow.id u) email
    = Some (AuthTokens.accessToken tokens) /\
  signedRefresh jwt_sign cfg now (UserRow.id u) email
    = Some (AuthTokens.refreshToken tokens) /\
  d' = withToken (withUser d u) r /\
  ws = [UserCreate u; RefreshTokenCreate r].
Proof.
  rewrite register_run.
  destruct (Prisma.findUserByEmail email d) eqn:F; [discriminate|].
  cbv zeta.
  destruct (generateTokens _ _ _ _) as [[o d2] w2] eqn:G.
  intros E. inversion E; subst; clear E.
  apply generateTokens_returned in G.
  destruct G as (SA & SR & _ & Ed & Ew). subst. auto.
Qed.

Lemma register_then_find now salt email password d :
  Prisma.findUserByEmail email d = None ->
  Prisma.findUserByEmail email
    (withUser d (newUser d now salt email password))
  = Some (newUser d now salt email password).
Proof.
  intros F. unfold Prisma.findUserByEmail in *. simpl.
  rewrite find_snoc, F. simpl. now rewrite String.eqb_refl.
Qed.

(** C4 (the code at the failing input).  When [register] has succeeded
    and the hasher accepts the password it has just hashed, a [login]
    with the same credentials at the same clock reading does not return a
    token pair: it signs the very refresh token that [register] stored,
    the insert is refused by the unique [token] column, and the P2002
    error leaves [login] uncaught. *)
Theorem login_right_after_register_collides
        now salt email password d tokens d1 ws :
  register now salt email password d = (Returned tokens, d1, ws) ->
  bcrypt_compare password
    (bcrypt_hash password (Config.bcryptRounds cfg) salt) = true ->
  login now email password d1 =
  (Threw (Other (PrismaClientKnownRequestError "P2002")), d1, []).
Proof.
  intros R B. apply register_returned in R. cbv zeta in R.
  destruct R as (F & SA & SR & Ed & _).
  rewrite login_run.
  assert (U : Prisma.findUserByEmail email d1 =
              Some (newUser d now salt email password)).
  { subst d1. exact (register_then_find now salt email password d F). }
  rewrite U.
  change (UserRow.password (newUser d now salt email password))
    with (bcrypt_hash password (Config.bcryptRounds cfg) salt).
  change (UserRow.email (newUser d now salt email password))
    with email.
  rewrite B, (generateTokens_run _ _ _ _ _ _ d1 _ _ SA SR).
  assert (C : Prisma.findRefreshToken (AuthTokens.refreshToken tokens) d1
              <> None).
  { subst d1. unfold Prisma.findRefreshToken. simpl.
    rewrite find_snoc.
    destruct (find _ (Db.refreshTokens d)); [discriminate|].
    simpl. rewrite String.eqb_refl. discriminate. }
  destruct (Prisma.findRefreshToken _ d1); [reflexivity | contradiction].
Qed.

(** When the clock has moved on far enough for the signer to produce a
    refresh token that is not stored yet, the same [login] succeeds, and
    both of its tokens are signed for the user that [register] created. *)
Lemma login_after_register_fresh
      now now' salt email password d tokens d1 ws a r :
  register now salt email password d = (Returned tokens, d1, ws) ->
  bcrypt_compare password
    (bcrypt_hash password (Config.bcryptRounds cfg) salt) = true ->
  signedAccess jwt_sign cfg now' (Prisma.genId (Db.nextId d)) email
    = Some a ->
  signedRefresh jwt_sign cfg now' (Prisma.genId (Db.nextId d)) email
    = Some r ->
  Prisma.findRefreshToken r d1 = None ->
  signedAccess jwt_sign cfg now (Prisma.genId (Db.nextId d)) email
    = Some (AuthTokens.accessToken tokens) /\
  outcome (login now' email password d1) = Returned (AuthTokens.mk a r).
Proof.
  intros R B SA' SR' C. apply register_returned in R. cbv zeta in R.
  destruct R as (F & SA & SR & Ed & _). split; [exact SA|].
  rewrite login_run.
  assert (U : Prisma.findUserByEmail email d1 =
              Some (newUser d now salt email password)).
  { subst d1. exact (register_then_find now salt email password d F). }
  rewrite U.
  change (UserRow.password (newUser d now salt email password))
    with (bcrypt_hash password (Config.bcryptRounds cfg) salt).
  change (UserRow.email (newUser d now salt email password))
    with email.
  change (UserRow.id (newUser d now salt email password))
    with (Prisma.genId (Db.nextId d)).
  rewrite B, (generateTokens_run _ _ _ _ _ _ d1 _ _ SA' SR'), C. reflexivity.
Qed.

(** C6.  [login] with an email that no user has, and [login] with the
    email of a stored user and a password the hasher rejects, fail with
    one and the same thrown value: the 401 [ServiceError] "Invalid email
    or password" (Unauthenticated), with nothing written. *)
Theorem login_failures_indistinguishable
        now email1 password1 email2 password2 user d :
  Prisma.findUserByEmail email1 d = None ->
  Prisma.findUserByEmail email2 d = Some user ->
  bcrypt_compare password2 (UserRow.password user) = false ->
  exists e,
    login now email1 password1 d = (Threw (IsServiceError e), d, []) /\
    login now email2 password2 d = (Threw (IsServiceError e), d, []) /\
    kindOf e = Unauthenticated /\
    ServiceError.message e = "Invalid email or password".
Proof.
  intros F1 F2 B. rewrite !login_run, F1, F2, B.
  eexists. repeat split; reflexivity.
Qed.

End Credentials.

(** ** The stored expiry *)

Section Expiry.

Variable jwt_sign : Payload.t -> string -> string -> Z -> option string.
Variable jwt_verify : string -> string -> Z -> option JWTPayload.t.
Variable bcrypt_hash : string -> Z -> string -> string.
Variable bcrypt_compare : string -> string -> bool.
Variable cfg : Config.t.
Variable localTZA : Zone.

(** C3 (amended).  On every successful register, login or refresh the
    one record inserted into the refresh-token table expires seven
    calendar days after [now] in the time zone of the process, which is
    exactly [now] plus seven days (604 800 000 ms) whenever the zone has
    the same offset at both ends; this holds whatever
    [JWT_REFRESH_EXPIRES_IN] is and whatever expiry the signer wrote into
    the token, for every configuration and every [jwt.sign]. *)
Theorem stored_expiry_is_seven_calendar_days
        now salt email password token d :
  persistsSevenCalendarDays localTZA now
    (AuthService.register jwt_sign bcrypt_hash cfg localTZA now salt
                          email password d)
  /\
  persistsSevenCalendarDays localTZA now
    (AuthService.login jwt_sign bcrypt_compare cfg localTZA now
                       email password d)
  /\
  (db_ok d ->
   persistsSevenCalendarDays localTZA now
     (AuthService.refreshToken jwt_sign jwt_verify cfg localTZA now token d)).
Proof.
  split; [|split].
  - intros tokens d' ws R. apply register_returned in R. cbv zeta in R.
    destruct R as (_ & _ & _ & Ed & Ew). subst.
    eexists. split; [reflexivity|]. simpl.
    split; [apply in_or_app; right; now left|].
    split; [reflexivity|]. split; [reflexivity|].
    apply setDate_plus_steady.
  - intros tokens d' ws R. rewrite login_run in R.
    destruct (Prisma.findUserByEmail email d) as [user|]; [|discriminate].
    destruct (bcrypt_compare _ _); [|discriminate].
    apply generateTokens_returned in R.
    destruct R as (_ & _ & _ & Ed & Ew). subst.
    eexists. split; [reflexivity|]. simpl.
    split; [apply in_or_app; right; now left|].
    split; [reflexivity|]. split; [reflexivity|].
    apply setDate_plus_steady.
  - intros OK tokens d' ws R.
    destruct (refreshToken_rotated _ _ _ _ _ _ _ _ _ _ OK R)
      as (old & user & _ & Ew & _ & I & _).
    eexists. split; [rewrite Ew; reflexivity|].
    split; [exact I|]. split; [reflexivity|]. split; [reflexivity|].
    apply setDate_plus_steady.
Qed.

End Expiry.

(** ** Validation, lookup, logout *)

Section Validation.

Variable jwt_verify : string -> string -> Z -> option JWTPayload.t.
Variable cfg : Config.t.

Local Notation validateToken := (AuthService.validateToken jwt_verify cfg).

(** C7.  [validateToken] fails with the 401 error "Invalid token"
    (Unauthenticated) when [jwt.verify] with the access secret throws,
    fails with the 404 error "User not found" (NotFound) when the token
    verifies and no stored user has the decoded user id, and otherwise
    returns the decoded payload; the store is never written. *)
Theorem validateToken_outcomes now token d :
  (jwt_verify token (Config.jwtSecret cfg) now = None ->
   exists e,
     validateToken now token d = (Threw (IsServiceError e), d, []) /\
     kindOf e = Unauthenticated) /\
  (forall decoded,
     jwt_verify token (Config.jwtSecret cfg) now = Some decoded ->
     Prisma.findUserById (JWTPayload.userId decoded) d = None ->
     exists e,
       validateToken now token d = (Threw (IsServiceError e), d, []) /\
       kindOf e = NotFound) /\
  (forall decoded user,
     jwt_verify token (Config.jwtSecret cfg) now = Some decoded ->
     Prisma.findUserById (JWTPayload.userId decoded) d = Some user ->
     validateToken now token d = (Returned decoded, d, [])).
Proof.
  unfold AuthService.validateToken, try_catch, bind, orThrow,
    Prisma.user_findUnique_id, ret, throw.
  split; [|split].
  - intros V. rewrite V. simpl. eexists. split; reflexivity.
  - intros decoded V U. rewrite V. simpl. rewrite U. simpl.
    eexists. split; reflexivity.
  - intros decoded user V U. rewrite V. simpl. rewrite U. reflexivity.
Qed.

End Validation.

(** C8 (amended).  [getUserById] returns the selected columns of the
    stored user (id, email, createdAt, updatedAt, no password) when a
    user with that id exists, and throws the 404 [ServiceError] "User not
    found" (NotFound) when none exists; the store is not written. *)
Theorem getUserById_found_or_not_found userId d :
  (forall user,
     Prisma.findUserById userId d = Some user ->
     AuthService.getUserById userId d =
     (Returned (Some (Prisma.selectUser user)), d, [])) /\
  (Prisma.findUserById userId d = None ->
   exists e,
     AuthService.getUserById userId d = (Threw (IsServiceError e), d, []) /\
     kindOf e = NotFound /\
     ServiceError.message e = "User not found").
Proof.
  unfold AuthService.getUserById, bind, Prisma.user_findUnique_id_select,
    ret, throw.
  split.
  - intros user U. rewrite U. reflexivity.
  - intros U. rewrite U. simpl. eexists. repeat split; reflexivity.
Qed.

(** C9.  [logout] always returns; it leaves the users alone and keeps
    exactly the refresh-token records whose token differs from the given
    string.  When no record has that token the store is unchanged, and a
    second [logout] with the same string changes nothing more. *)
Theorem logout_deletes_matching_is_idempotent token d :
  outcome (AuthService.logout token d) = Returned tt /\
  Db.users (database (AuthService.logout token d)) = Db.users d /\
  (forall r,
     In r (Db.refreshTokens (database (AuthService.logout token d))) <->
     In r (Db.refreshTokens d) /\ RefreshTokenRow.token r <> token) /\
  (Prisma.findRefreshToken token d = None ->
   database (AuthService.logout token d) = d) /\
  database (AuthService.logout token (database (AuthService.logout token d)))
  = database (AuthService.logout token d).
Proof.
  unfold AuthService.logout, bind, Prisma.refreshToken_deleteMany, ret,
    outcome, database. simpl.
  split; [reflexivity|]. split; [reflexivity|]. split; [|split].
  - intros r. rewrite filter_In, negb_true_iff, String.eqb_neq. tauto.
  - intros F. destruct d as [us ts n]. simpl in *. f_equal.
    apply filter_all_true. intros x I.
    unfold Prisma.findRefreshToken in F. simpl in F.
    now rewrite (find_None_In _ _ x F I).
  - f_equal. apply filter_idem.
Qed.

(** C10.  A successful refresh signs both new tokens for the id and the
    email of the user row that the stored record of the presented token
    references, as read from the store at that moment.  The claims that
    [jwt.verify] decoded from the presented token play no part: with any
    other verifier that accepts the token, whatever claims it decodes,
    the request returns the same pair, the same store and the same
    writes. *)
Theorem refreshToken_mints_from_stored_user
        jwt_sign jwt_verify jwt_verify' cfg localTZA now token d tokens d' ws :
  AuthService.refreshToken jwt_sign jwt_verify cfg localTZA now token d
    = (Returned tokens, d', ws) ->
  jwt_verify' token (Config.jwtRefreshSecret cfg) now <> None ->
  (exists old user,
     Prisma.findRefreshToken token d = Some old /\
     Prisma.findUserById (RefreshTokenRow.userId old) d = Some user /\
     jwt_sign (Payload.mk (UserRow.id user) (UserRow.email user))
              (Config.jwtSecret cfg) (Config.jwtExpiresIn cfg) now
       = Some (AuthTokens.accessToken tokens) /\
     jwt_sign (Payload.mk (UserRow.id user) (UserRow.email user))
              (Config.jwtRefreshSecret cfg) (Config.jwtRefreshExpiresIn cfg)
              now
       = Some (AuthTokens.refreshToken tokens)) /\
  AuthService.refreshToken jwt_sign jwt_verify' cfg localTZA now token d
    = (Returned tokens, d', ws).
Proof.
  intros R V'. split.
  - destruct (refreshToken_returned _ _ _ _ _ _ _ _ _ _ R)
      as (old & user & _ & F & U & SA & SR & _).
    exists old, user. auto.
  - rewrite refreshToken_run in R |- *.
    destruct (jwt_verify token _ now); [|discriminate].
    destruct (jwt_verify' token _ now); [exact R | contradiction].
Qed.

(** ** The Token Signer *)

Lemma decodeClaims_encodeClaims (c : JWTPayload.t) (rest : string) :
  Jwt.decodeClaims (Jwt.encodeClaims c rest) = Some (c, rest).
Proof.
  unfold Jwt.decodeClaims, Jwt.encodeClaims.
  rewrite !getField_putField, !readZ_showZ. now destruct c.
Qed.

Lemma verify_sign_same_secret ms mac payload secret expiresIn span now :
  ms expiresIn = Some span ->
  Jwt.sign ms mac payload secret expiresIn now <> None /\
  forall token,
    Jwt.sign ms mac payload secret expiresIn now = Some token ->
    Jwt.verify mac token secret now =
    if 1000 <=? span then
      Some (JWTPayload.mk (Payload.userId payload) (Payload.email payload)
                          (now / 1000) (now / 1000 + span / 1000))
    else None.
Proof.
  intros E. unfold Jwt.sign. rewrite E. split; [discriminate|].
  intros token T. inversion T; subst; clear T.
  unfold Jwt.verify. rewrite decodeClaims_encodeClaims.
  rewrite String.eqb_refl. simpl.
  destruct (Z.leb_spec 1000 span) as [L | L].
  - assert (1 <= span / 1000) by (apply Z.div_le_lower_bound; lia).
    destruct (Z.leb_spec (now / 1000 + span / 1000) (now / 1000));
      [lia | reflexivity].
  - assert (span / 1000 < 1) by (apply Z.div_lt_upper_bound; lia).
    destruct (Z.leb_spec (now / 1000 + span / 1000) (now / 1000));
      [reflexivity | lia].
Qed.

Lemma verify_sign_other_secret ms mac payload secret other expiresIn now token :
  keySeparating mac ->
  other <> secret ->
  Jwt.sign ms mac payload secret expiresIn now = Some token ->
  Jwt.verify mac token other now = None.
Proof.
  intros K N. unfold Jwt.sign.
  destruct (ms expiresIn) as [span|]; [|discriminate].
  intros T. inversion T; subst; clear T.
  unfold Jwt.verify. rewrite decodeClaims_encodeClaims.
  destruct (String.eqb_spec
              (mac secret (Jwt.encodeClaims
                 (JWTPayload.mk (Payload.userId payload)
                    (Payload.email payload) (now / 1000)
                    (now / 1000 + span / 1000)) ""))
              (mac other (Jwt.encodeClaims
                 (JWTPayload.mk (Payload.userId payload)
                    (Payload.email payload) (now / 1000)
                    (now / 1000 + span / 1000)) ""))) as [E | E].
  - exfalso. exact (K other secret _ N (eq_sym E)).
  - reflexivity.
Qed.

(** C5 (amended).  For every payload and secret and every [expiresIn]
    that reads as a span of at least one second, the Token Signer signs,
    and the token verified at the same clock reading with the same secret
    decodes to the payload's user id and email; verified with any other
    secret it is refused, the MAC separating keys. *)
Theorem sign_verify_roundtrip
        ms mac payload secret expiresIn span now :
  keySeparating mac ->
  ms expiresIn = Some span ->
  1000 <= span ->
  exists token claims,
    Jwt.sign ms mac payload secret expiresIn now = Some token /\
    Jwt.verify mac token secret now = Some claims /\
    JWTPayload.userId claims = Payload.userId payload /\
    JWTPayload.email claims = Payload.email payload /\
    forall other,
      other <> secret -> Jwt.verify mac token other now = None.
Proof.
  intros K E L.
  destruct (verify_sign_same_secret ms mac payload secret expiresIn span now E)
    as [S V].
  destruct (Jwt.sign ms mac payload secret expiresIn now) as [token|] eqn:T;
    [|contradiction].
  specialize (V token eq_refl).
  destruct (Z.leb_spec 1000 span); [|lia].
  eexists token, _. split; [reflexivity|]. split; [exact V|].
  split; [reflexivity|]. split; [reflexivity|].
  intros other N. exact (verify_sign_other_secret _ _ _ _ _ _ _ _ K N T).
Qed.

Lemma idealMac_keySeparating : keySeparating Jwt.idealMac.
Proof.
  intros k1 k2 m N E. unfold Jwt.idealMac in E.
  apply (f_equal getField) in E. rewrite !getField_putField in E.
  congruence.
Qed.

Lemma compare_hash (password salt : string) (rounds : Z) :
  Bcrypt.compare password (Bcrypt.hash password rounds salt) = true.
Proof.
  unfold Bcrypt.compare, Bcrypt.hash.
  rewrite !getField_putField. apply String.eqb_refl.
Qed.

(** ** The service over the Token Signer *)

Section Wiring.

Variable ms : string -> option Z.
Variable mac : string -> string -> string.
Variable cfg : Config.t.
Variable localTZA : Zone.

Local Notation jwt_sign := (Jwt.sign ms mac).
Local Notation jwt_verify := (Jwt.verify mac).

(** The pair [generateTokens] returns is wired to the two secrets as the
    readers expect: presented at once, the access token passes
    [validateToken] and decodes to the user it was signed for, while the
    refresh token is refused there and the access token is refused by
    [refreshToken]. *)
Lemma issued_pair_is_keyed now userId email d tokens d' ws span user :
  keySeparating mac ->
  Config.jwtSecret cfg <> Config.jwtRefreshSecret cfg ->
  ms (Config.jwtExpiresIn cfg) = Some span ->
  1000 <= span ->
  Prisma.findUserById userId d = Some user ->
  AuthService.generateTokens jwt_sign cfg localTZA now userId email d
    = (Returned tokens, d', ws) ->
  (exists claims,
     AuthService.validateToken jwt_verify cfg now
       (AuthTokens.accessToken tokens) d' = (Returned claims, d', []) /\
     JWTPayload.userId claims = userId /\
     JWTPayload.email claims = email) /\
  (exists e,
     AuthService.validateToken jwt_verify cfg now
       (AuthTokens.refreshToken tokens) d'
       = (Threw (IsServiceError e), d', []) /\
     kindOf e = Unauthenticated) /\
  (exists e,
     AuthService.refreshToken jwt_sign jwt_verify cfg localTZA now
       (AuthTokens.accessToken tokens) d'
       = (Threw (IsServiceError e), d', []) /\
     kindOf e = Unauthenticated).
Proof.
  intros K N E L U G. apply generateTokens_returned in G.
  destruct G as (SA & SR & _ & Ed & _).
  unfold signedAccess in SA. unfold signedRefresh in SR.
  assert (U' : Prisma.findUserById userId d' = Some user).
  { subst d'. exact U. }
  split; [|split].
  - destruct (verify_sign_same_secret ms mac (Payload.mk userId email)
                (Config.jwtSecret cfg) (Config.jwtExpiresIn cfg) span now E)
      as [_ V].
    specialize (V _ SA). destruct (Z.leb_spec 1000 span); [|lia].
    simpl in V.
    exists (JWTPayload.mk userId email (now / 1000)
                          (now / 1000 + span / 1000)).
    split; [|split; reflexivity].
    unfold AuthService.validateToken, try_catch, bind, orThrow,
      Prisma.user_findUnique_id, ret.
    rewrite V. simpl. rewrite U'. reflexivity.
  - pose proof (verify_sign_other_secret ms mac _ _ (Config.jwtSecret cfg)
                  _ _ _ K N SR) as V.
    eexists. split.
    + unfold AuthService.validateToken, try_catch, bind, orThrow, throw.
      rewrite V. reflexivity.
    + reflexivity.
  - pose proof (verify_sign_other_secret ms mac _ _
                  (Config.jwtRefreshSecret cfg) _ _ _ K
                  (not_eq_sym N) SA) as V.
    eexists. split.
    + rewrite refreshToken_run, V. reflexivity.
    + reflexivity.
Qed.

End Wiring.

(* ================================================================== *)
(** * The requests at work *)

Lemma db1_ok : db_ok Std.db1.
Proof.
  apply (preserves_register Std.jwt_sign Bcrypt.hash Std.cfg Std.zone).
  exact db_ok_empty.
Qed.

(** C1: the claim fails.  One second after registration the refresh of
    the registered token succeeds with the insert as first write and the
    delete as second: no delete comes before the insert.  And a refresh
    of that token within the second of its issue fails half-way (the new
    token equals the stored one, the insert is refused) and leaves the
    token as usable as before. *)
Lemma refreshToken_deletes_last :
  (exists tokens d' new,
     Std.refreshToken (Std.t0 + 1000) Std.RT1 Std.db1 =
     (Returned tokens, d',
      [RefreshTokenCreate new; RefreshTokenDelete "1"])) /\
  occursBefore isDelete isCreate
    (writes (Std.refreshToken (Std.t0 + 1000) Std.RT1 Std.db1)) = false /\
  Std.refreshToken Std.t0 Std.RT1 Std.db1 =
  (Threw (invalidRefreshToken
            (Some (PrismaClientKnownRequestError "P2002"))), Std.db1, []) /\
  exists tokens,
    outcome (Std.refreshToken (Std.t0 + 1000) Std.RT1
               (database (Std.refreshToken Std.t0 Std.RT1 Std.db1)))
    = Returned tokens.
Proof.
  split; [|split; [|split]].
  - vm_compute. do 3 eexists. reflexivity.
  - vm_compute. reflexivity.
  - vm_compute. reflexivity.
  - vm_compute. eexists. reflexivity.
Qed.

Lemma refreshToken_creates_then_deletes_witness :
  exists tokens d' ws,
    db_ok Std.db1 /\
    Std.refreshToken (Std.t0 + 1000) Std.RT1 Std.db1
      = (Returned tokens, d', ws) /\
    exists old new,
      Prisma.findRefreshToken Std.RT1 Std.db1 = Some old /\
      RefreshTokenRow.token new = AuthTokens.refreshToken tokens /\
      ws = [RefreshTokenCreate new;
            RefreshTokenDelete (RefreshTokenRow.id old)] /\
      Db.refreshTokens d' =
        withoutId (RefreshTokenRow.id old) (Db.refreshTokens Std.db1)
        ++ [new] /\
      In new (Db.refreshTokens d') /\
      ~ In old (Db.refreshTokens d').
Proof.
  assert (R : exists tokens d' ws,
             Std.refreshToken (Std.t0 + 1000) Std.RT1 Std.db1
             = (Returned tokens, d', ws))
    by (vm_compute; do 3 eexists; reflexivity).
  destruct R as (tokens & d' & ws & R).
  exists tokens, d', ws. split; [exact db1_ok|]. split; [exact R|].
  exact (refreshToken_creates_then_deletes
           Std.jwt_sign Std.jwt_verify Std.cfg Std.zone (Std.t0 + 1000)
           Std.RT1 Std.db1 tokens d' ws db1_ok R).
Defined.

Lemma refreshToken_single_use_witness :
  exists tokens d1 ws e,
    db_ok Std.db1 /\
    Std.refreshToken (Std.t0 + 1000) Std.RT1 Std.db1
      = (Returned tokens, d1, ws) /\
    Std.refreshToken (Std.t0 + 2000) Std.RT1 d1
      = (Threw (IsServiceError e), d1, []) /\
    kindOf e = Unauthenticated /\
    ServiceError.message e = "Invalid refresh token".
Proof.
  assert (R : exists tokens d' ws,
             Std.refreshToken (Std.t0 + 1000) Std.RT1 Std.db1
             = (Returned tokens, d', ws))
    by (vm_compute; do 3 eexists; reflexivity).
  destruct R as (tokens & d1 & ws & R).
  destruct (refreshToken_single_use
              Std.jwt_sign Std.jwt_verify Std.cfg Std.zone (Std.t0 + 1000)
              (Std.t0 + 2000) Std.RT1 Std.db1 tokens d1 ws db1_ok R)
    as (e & H).
  exists tokens, d1, ws, e. split; [exact db1_ok|]. split; [exact R|].
  exact H.
Defined.

(** C3: the claim fails.  In New York, a registration on 1 November
    2023 stores an expiry of seven days and one hour after [now]: on the
    calendar the clocks are set back within the week. *)
Lemma stored_expiry_across_clock_change :
  exists tokens d' ws r,
    AuthService.register Std.jwt_sign Bcrypt.hash Std.cfg Sample.newYork
                         Sample.firstOfNovember "salt" "a@x.com" "pw1"
                         Db.empty
      = (Returned tokens, d', ws) /\
    persisted ws = [r] /\
    RefreshTokenRow.expiresAt r
      = Sample.firstOfNovember + sevenDays + 3600000 /\
    RefreshTokenRow.expiresAt r <> Sample.firstOfNovember + sevenDays.
Proof.
  do 4 eexists. split; [vm_compute; reflexivity|].
  split; [vm_compute; reflexivity|].
  split; [vm_compute; reflexivity|].
  vm_compute. discriminate.
Qed.

Lemma stored_expiry_is_seven_calendar_days_witness :
  (exists tokens d' ws r,
     Std.registered = (Returned tokens, d', ws) /\
     steadyOffset Std.zone Std.t0 7 /\
     persisted ws = [r] /\
     In r (Db.refreshTokens d') /\
     RefreshTokenRow.token r = AuthTokens.refreshToken tokens /\
     RefreshTokenRow.expiresAt r = Std.t0 + sevenDays) /\
  (exists tokens d' ws r,
     AuthService.login Std.jwt_sign Bcrypt.compare Std.cfg Sample.newYork
                       Sample.firstOfNovember "a@x.com" "pw1" Std.db1
       = (Returned tokens, d', ws) /\
     persisted ws = [r] /\
     In r (Db.refreshTokens d') /\
     RefreshTokenRow.token r = AuthTokens.refreshToken tokens /\
     RefreshTokenRow.expiresAt r
       = Date_setDate_plus Sample.newYork Sample.firstOfNovember 7) /\
  (exists tokens d' ws r,
     db_ok Std.db1 /\
     Std.refreshToken (Std.t0 + 1000) Std.RT1 Std.db1
       = (Returned tokens, d', ws) /\
     steadyOffset Std.zone (Std.t0 + 1000) 7 /\
     persisted ws = [r] /\
     In r (Db.refreshTokens d') /\
     RefreshTokenRow.token r = AuthTokens.refreshToken tokens /\
     RefreshTokenRow.expiresAt r = Std.t0 + 1000 + sevenDays).
Proof.
  split; [|split].
  - assert (R : exists tokens d' ws,
               Std.registered = (Returned tokens, d', ws))
      by (vm_compute; do 3 eexists; reflexivity).
    destruct R as (tokens & d' & ws & R).
    destruct (stored_expiry_is_seven_calendar_days
                Std.jwt_sign Std.jwt_verify Bcrypt.hash Bcrypt.compare
                Std.cfg Std.zone Std.t0 "salt" "a@x.com" "pw1" Std.RT1
                Db.empty)
      as [H _].
    destruct (H tokens d' ws R) as (r & P & I & T & _ & X).
    exists tokens, d', ws, r. split; [exact R|].
    split; [exact (fixedZone_steady 0 Std.t0 7)|].
    split; [exact P|]. split; [exact I|]. split; [exact T|].
    exact (X (fixedZone_steady 0 Std.t0 7)).
  - assert (R : exists tokens d' ws,
               AuthService.login Std.jwt_sign Bcrypt.compare Std.cfg
                 Sample.newYork Sample.firstOfNovember "a@x.com" "pw1"
                 Std.db1
               = (Returned tokens, d', ws))
      by (vm_compute; do 3 eexists; reflexivity).
    destruct R as (tokens & d' & ws & R).
    destruct (stored_expiry_is_seven_calendar_days
                Std.jwt_sign Std.jwt_verify Bcrypt.hash Bcrypt.compare
                Std.cfg Sample.newYork Sample.firstOfNovember "salt"
                "a@x.com" "pw1" Std.RT1 Std.db1)
      as (_ & H & _).
    destruct (H tokens d' ws R) as (r & P & I & T & X & _).
    exists tokens, d', ws, r. split; [exact R|].
    split; [exact P|]. split; [exact I|]. split; [exact T | exact X].
  - assert (R : exists tokens d' ws,
               Std.refreshToken (Std.t0 + 1000) Std.RT1 Std.db1
               = (Returned tokens, d', ws))
      by (vm_compute; do 3 eexists; reflexivity).
    destruct R as (tokens & d' & ws & R).
    destruct (stored_expiry_is_seven_calendar_days
                Std.jwt_sign Std.jwt_verify Bcrypt.hash Bcrypt.compare
                Std.cfg Std.zone (Std.t0 + 1000) "salt" "a@x.com" "pw1"
                Std.RT1 Std.db1)
      as (_ & _ & H).
    destruct (H db1_ok tokens d' ws R) as (r & P & I & T & _ & X).
    exists tokens, d', ws, r.
    split; [exact db1_ok|]. split; [exact R|].
    split; [exact (fixedZone_steady 0 (Std.t0 + 1000) 7)|].
    split; [exact P|]. split; [exact I|]. split; [exact T|].
    exact (X (fixedZone_steady 0 (Std.t0 + 1000) 7)).
Defined.

Lemma login_right_after_register_collides_witness :
  exists tokens ws,
    Std.registered = (Returned tokens, Std.db1, ws) /\
    Bcrypt.compare "pw1" (Bcrypt.hash "pw1" 10 "salt") = true /\
    Std.login Std.t0 "a@x.com" "pw1" Std.db1 =
    (Threw (Other (PrismaClientKnownRequestError "P2002")), Std.db1, []).
Proof.
  assert (R : exists tokens ws,
             Std.registered = (Returned tokens, Std.db1, ws))
    by (vm_compute; do 2 eexists; reflexivity).
  destruct R as (tokens & ws & R).
  exists tokens, ws. split; [exact R|].
  split; [vm_compute; reflexivity|].
  exact (login_right_after_register_collides
           Std.jwt_sign Bcrypt.hash Bcrypt.compare Std.cfg Std.zone
           Std.t0 "salt" "a@x.com" "pw1" Db.empty tokens Std.db1 ws R
           (compare_hash "pw1" "salt" 10)).
Defined.

(** The same collision half a second later: the signer counts whole
    seconds.  One second later the login succeeds. *)
Lemma login_within_the_second :
  Std.login (Std.t0 + 500) "a@x.com" "pw1" Std.db1 =
  (Threw (Other (PrismaClientKnownRequestError "P2002")), Std.db1, []) /\
  exists tokens,
    outcome (Std.login (Std.t0 + 1000) "a@x.com" "pw1" Std.db1)
    = Returned tokens.
Proof.
  split.
  - vm_compute. reflexivity.
  - vm_compute. eexists. reflexivity.
Qed.

(** C5: the claim fails for a span of zero.  The token signed with
    "0s" is refused at the very clock reading it was signed at. *)
Lemma sign_zero_span_expired :
  exists token,
    Jwt.sign Jwt.msShort Jwt.idealMac (Payload.mk "0" "a@x.com")
             "access-secret" "0s" Std.t0 = Some token /\
    Jwt.verify Jwt.idealMac token "access-secret" Std.t0 = None.
Proof.
  eexists. split.
  - vm_compute. reflexivity.
  - vm_compute. reflexivity.
Qed.

Lemma sign_verify_roundtrip_witness :
  keySeparating Jwt.idealMac /\
  Jwt.msShort "15m" = Some 900000 /\
  1000 <= 900000 /\
  exists token claims,
    Jwt.sign Jwt.msShort Jwt.idealMac (Payload.mk "0" "a@x.com")
             "access-secret" "15m" Std.t0 = Some token /\
    Jwt.verify Jwt.idealMac token "access-secret" Std.t0 = Some claims /\
    JWTPayload.userId claims = "0" /\
    JWTPayload.email claims = "a@x.com" /\
    forall other,
      other <> "access-secret" ->
      Jwt.verify Jwt.idealMac token other Std.t0 = None.
Proof.
  split; [exact idealMac_keySeparating|].
  split; [vm_compute; reflexivity|].
  split; [lia|].
  apply (sign_verify_roundtrip Jwt.msShort Jwt.idealMac
           (Payload.mk "0" "a@x.com") "access-secret" "15m" 900000 Std.t0).
  - exact idealMac_keySeparating.
  - vm_compute; reflexivity.
  - lia.
Defined.

Lemma login_failures_indistinguishable_witness :
  exists user e,
    Prisma.findUserByEmail "b@x.com" Std.db1 = None /\
    Prisma.findUserByEmail "a@x.com" Std.db1 = Some user /\
    Bcrypt.compare "wrong" (UserRow.password user) = false /\
    Std.login Std.t0 "b@x.com" "pw1" Std.db1
      = (Threw (IsServiceError e), Std.db1, []) /\
    Std.login Std.t0 "a@x.com" "wrong" Std.db1
      = (Threw (IsServiceError e), Std.db1, []) /\
    kindOf e = Unauthenticated /\
    ServiceError.message e = "Invalid email or password".
Proof.
  assert (F1 : Prisma.findUserByEmail "b@x.com" Std.db1 = None)
    by (vm_compute; reflexivity).
  assert (F2 : exists user,
             Prisma.findUserByEmail "a@x.com" Std.db1 = Some user /\
             Bcrypt.compare "wrong" (UserRow.password user) = false)
    by (eexists; split; [vm_compute; reflexivity | vm_compute; reflexivity]).
  destruct F2 as (user & F2 & B).
  destruct (login_failures_indistinguishable
              Std.jwt_sign Bcrypt.compare Std.cfg Std.zone Std.t0
              "b@x.com" "pw1" "a@x.com" "wrong" user Std.db1 F1 F2 B)
    as (e & H).
  exists user, e. split; [exact F1|]. split; [exact F2|].
  split; [exact B | exact H].
Defined.

Lemma validateToken_outcomes_witness :
  (Std.jwt_verify "garbage" "access-secret" Std.t0 = None /\
   exists e,
     Std.validateToken Std.t0 "garbage" Std.db1
       = (Threw (IsServiceError e), Std.db1, []) /\
     kindOf e = Unauthenticated) /\
  (exists decoded,
     Std.jwt_verify Std.AT1 "access-secret" Std.t0 = Some decoded /\
     Prisma.findUserById (JWTPayload.userId decoded) Db.empty = None /\
     exists e,
       Std.validateToken Std.t0 Std.AT1 Db.empty
         = (Threw (IsServiceError e), Db.empty, []) /\
       kindOf e = NotFound) /\
  (exists decoded user,
     Std.jwt_verify Std.AT1 "access-secret" Std.t0 = Some decoded /\
     Prisma.findUserById (JWTPayload.userId decoded) Std.db1 = Some user /\
     Std.validateToken Std.t0 Std.AT1 Std.db1
       = (Returned decoded, Std.db1, [])).
Proof.
  assert (V0 : Std.jwt_verify "garbage" "access-secret" Std.t0 = None)
    by (vm_compute; reflexivity).
  assert (V1 : exists decoded user,
             Std.jwt_verify Std.AT1 "access-secret" Std.t0 = Some decoded /\
             Prisma.findUserById (JWTPayload.userId decoded) Db.empty = None
             /\
             Prisma.findUserById (JWTPayload.userId decoded) Std.db1
             = Some user)
    by (do 2 eexists; split; [vm_compute; reflexivity|];
        split; vm_compute; reflexivity).
  destruct V1 as (decoded & user & V & U0 & U1).
  split; [|split].
  - split; [exact V0|].
    exact (proj1 (validateToken_outcomes Std.jwt_verify Std.cfg Std.t0
                    "garbage" Std.db1) V0).
  - exists decoded. split; [exact V|]. split; [exact U0|].
    exact (proj1 (proj2 (validateToken_outcomes Std.jwt_verify Std.cfg
                           Std.t0 Std.AT1 Db.empty)) decoded V U0).
  - exists decoded, user. split; [exact V|]. split; [exact U1|].
    exact (proj2 (proj2 (validateToken_outcomes Std.jwt_verify Std.cfg
                           Std.t0 Std.AT1 Std.db1)) decoded user V U1).
Defined.

(** C8: the claim fails.  For an id that no user has, [getUserById] does
    not return an absent result: it throws the 404 error. *)
Lemma getUserById_absent_throws :
  outcome (AuthService.getUserById "42" Std.db1) <> Returned None /\
  outcome (AuthService.getUserById "42" Std.db1) =
  Threw (IsServiceError (createServiceError "User not found" 404 None None)).
Proof.
  split.
  - vm_compute. discriminate.
  - vm_compute. reflexivity.
Qed.

Lemma getUserById_found_or_not_found_witness :
  (exists user,
     Prisma.findUserById "0" Std.db1 = Some user /\
     AuthService.getUserById "0" Std.db1 =
     (Returned (Some (Prisma.selectUser user)), Std.db1, [])) /\
  (Prisma.findUserById "42" Std.db1 = None /\
   exists e,
     AuthService.getUserById "42" Std.db1
       = (Threw (IsServiceError e), Std.db1, []) /\
     kindOf e = NotFound /\
     ServiceError.message e = "User not found").
Proof.
  assert (F0 : exists user, Prisma.findUserById "0" Std.db1 = Some user)
    by (vm_compute; eexists; reflexivity).
  assert (F1 : Prisma.findUserById "42" Std.db1 = None)
    by (vm_compute; reflexivity).
  destruct F0 as (user & F0).
  split.
  - exists user. split; [exact F0|].
    exact (proj1 (getUserById_found_or_not_found "0" Std.db1) user F0).
  - split; [exact F1|].
    exact (proj2 (getUserById_found_or_not_found "42" Std.db1) F1).
Defined.

Lemma logout_deletes_matching_is_idempotent_witness :
  Prisma.findRefreshToken "unknown" Std.db1 = None /\
  database (AuthService.logout "unknown" Std.db1) = Std.db1.
Proof.
  assert (F : Prisma.findRefreshToken "unknown" Std.db1 = None)
    by (vm_compute; reflexivity).
  split; [exact F|].
  destruct (logout_deletes_matching_is_idempotent "unknown" Std.db1)
    as (_ & _ & _ & H & _).
  exact (H F).
Defined.

(** [logout] of the stored token empties the table. *)
Lemma logout_of_stored_token :
  Db.refreshTokens (database (AuthService.logout Std.RT1 Std.db1)) = [].
Proof. vm_compute. reflexivity. Qed.

Lemma refreshToken_mints_from_stored_user_witness :
  exists tokens d' ws,
    Std.refreshToken (Std.t0 + 1000) Std.RT1 Std.db1
      = (Returned tokens, d', ws) /\
    Std.verifyAsIntruder Std.RT1 "refresh-secret" (Std.t0 + 1000) <> None /\
    (exists old user,
       Prisma.findRefreshToken Std.RT1 Std.db1 = Some old /\
       Prisma.findUserById (RefreshTokenRow.userId old) Std.db1
         = Some user /\
       Std.jwt_sign (Payload.mk (UserRow.id user) (UserRow.email user))
                    "access-secret" "15m" (Std.t0 + 1000)
         = Some (AuthTokens.accessToken tokens) /\
       Std.jwt_sign (Payload.mk (UserRow.id user) (UserRow.email user))
                    "refresh-secret" "7d" (Std.t0 + 1000)
         = Some (AuthTokens.refreshToken tokens)) /\
    AuthService.refreshToken Std.jwt_sign Std.verifyAsIntruder Std.cfg
                             Std.zone
                             (Std.t0 + 1000) Std.RT1 Std.db1
      = (Returned tokens, d', ws).
Proof.
  assert (R : exists tokens d' ws,
             Std.refreshToken (Std.t0 + 1000) Std.RT1 Std.db1
             = (Returned tokens, d', ws))
    by (vm_compute; do 3 eexists; reflexivity).
  destruct R as (tokens & d' & ws & R).
  assert (V : Std.verifyAsIntruder Std.RT1 "refresh-secret" (Std.t0 + 1000)
              <> None) by discriminate.
  exists tokens, d', ws. split; [exact R|]. split; [exact V|].
  exact (refreshToken_mints_from_stored_user
           Std.jwt_sign Std.jwt_verify Std.verifyAsIntruder Std.cfg Std.zone
           (Std.t0 + 1000) Std.RT1 Std.db1 tokens d' ws R V).
Defined.

(** The scenario of the specification, one second between requests:
    register gives RT1; refresh(RT1) gives RT2; a second refresh(RT1) is
    refused; refresh(RT2) gives RT3. *)
Lemma rotation_scenario :
  exists pair2 db2 ws2 pair3 db3 ws3,
    Std.refreshToken (Std.t0 + 1000) Std.RT1 Std.db1
      = (Returned pair2, db2, ws2) /\
    Std.refreshToken (Std.t0 + 2000) Std.RT1 db2
      = (Threw (invalidRefreshToken None), db2, []) /\
    Std.refreshToken (Std.t0 + 3000) (AuthTokens.refreshToken pair2) db2
      = (Returned pair3, db3, ws3) /\
    length (Db.refreshTokens db3) = 1%nat.
Proof.
  do 6 eexists. split; [vm_compute; reflexivity|].
  split; [vm_compute; reflexivity|].
  split; [vm_compute; reflexivity|].
  vm_compute. reflexivity.
Qed.

(* ================================================================== *)
(** * More of the service *)

Lemma find_after_filter {A} (p keep : A -> bool) (l : list A) :
  (forall x, p x = true -> keep x = true) ->
  find p (filter keep l) = find p l.
Proof.
  intros H. induction l as [|a l IH]; simpl.
  - reflexivity.
  - destruct (keep a) eqn:K; simpl.
    + destruct (p a); [reflexivity | exact IH].
    + destruct (p a) eqn:P; [|exact IH].
      rewrite (H a P) in K. discriminate.
Qed.

Lemma length_without_one {A} (key : A -> string) (l : list A) (x : A) :
  NoDup (map key l) ->
  In x l ->
  S (length (filter (fun y => negb (String.eqb (key y) (key x))) l))
  = length l.
Proof.
  induction l as [|a l IH]; simpl; intros N I.
  - contradiction.
  - apply NoDup_cons_iff in N. destruct N as [Hn N].
    destruct I as [-> | I].
    + rewrite String.eqb_refl. simpl. f_equal.
      f_equal. apply filter_all_true. intros y Iy.
      apply negb_true_iff, String.eqb_neq. intros E.
      apply Hn. rewrite <- E. now apply in_map.
    + destruct (String.eqb_spec (key a) (key x)) as [E | E]; simpl.
      * exfalso. apply Hn. rewrite E. now apply in_map.
      * f_equal. now apply IH.
Qed.

Section Accounts.

Variable jwt_sign : Payload.t -> string -> string -> Z -> option string.
Variable jwt_verify : string -> string -> Z -> option JWTPayload.t.
Variable bcrypt_hash : string -> Z -> string -> string.
Variable bcrypt_compare : string -> string -> bool.
Variable cfg : Config.t.
Variable localTZA : Zone.

Local Notation generateTokens := (AuthService.generateTokens jwt_sign cfg localTZA).
Local Notation register := (AuthService.register jwt_sign bcrypt_hash cfg localTZA).
Local Notation login := (AuthService.login jwt_sign bcrypt_compare cfg localTZA).
Local Notation refreshToken :=
  (AuthService.refreshToken jwt_sign jwt_verify cfg localTZA).
Local Notation validateToken := (AuthService.validateToken jwt_verify cfg).
Local Notation newUser := (registeredUser bcrypt_hash cfg).

(** X3.  A successful [login] revokes nothing: the users are untouched,
    the refresh-token table is the old one followed by the one new
    record, and every token that was stored is still found, with the same
    record. *)
Theorem login_keeps_sessions now email password d tokens d' ws :
  login now email password d = (Returned tokens, d', ws) ->
  Db.users d' = Db.users d /\
  (exists r,
     Db.refreshTokens d' = Db.refreshTokens d ++ [r] /\
     RefreshTokenRow.token r = AuthTokens.refreshToken tokens) /\
  forall token row,
    Prisma.findRefreshToken token d = Some row ->
    Prisma.findRefreshToken token d' = Some row.
Proof.
  intros R. rewrite login_run in R.
  destruct (Prisma.findUserByEmail email d) as [user|]; [|discriminate].
  destruct (bcrypt_compare _ _); [|discriminate].
  apply generateTokens_returned in R.
  destruct R as (_ & _ & _ & Ed & _). subst d'.
  split; [reflexivity|]. split.
  - eexists. split; reflexivity.
  - intros token row F. unfold Prisma.findRefreshToken in *. simpl.
    rewrite find_snoc, F. reflexivity.
Qed.

(** X4.  A [login] that throws has left the store as it was and written
    nothing; [validateToken] and [getUserById] never change the store and
    never write, whatever they return or throw. *)
Theorem failed_login_and_lookups_write_nothing now email password token
        userId d :
  (forall t d' ws,
     login now email password d = (Threw t, d', ws) -> d' = d /\ ws = []) /\
  database (validateToken now token d) = d /\
  writes (validateToken now token d) = [] /\
  database (AuthService.getUserById userId d) = d /\
  writes (AuthService.getUserById userId d) = [].
Proof.
  split.
  - intros t d' ws R. rewrite login_run in R.
    destruct (Prisma.findUserByEmail email d) as [user|].
    + destruct (bcrypt_compare _ _).
      * apply generateTokens_threw in R. destruct R as (-> & -> & _).
        split; reflexivity.
      * inversion R. split; reflexivity.
    + inversion R. split; reflexivity.
  - unfold AuthService.validateToken, AuthService.getUserById, try_catch,
      bind, orThrow, Prisma.user_findUnique_id,
      Prisma.user_findUnique_id_select, ret, throw, database, writes.
    destruct (jwt_verify token (Config.jwtSecret cfg) now) as [decoded|];
      simpl.
    + destruct (Prisma.findUserById (JWTPayload.userId decoded) d);
        destruct (Prisma.findUserById userId d); simpl;
          repeat split; reflexivity.
    + destruct (Prisma.findUserById userId d); simpl;
        repeat split; reflexivity.
Qed.


(** X6.  A successful [refreshToken] never hands the presented token
    back: the refresh token of the returned pair differs from it. *)
Theorem refresh_returns_another_token now token d tokens d' ws :
  refreshToken now token d = (Returned tokens, d', ws) ->
  AuthTokens.refreshToken tokens <> token.
Proof.
  intros R. apply refreshToken_returned in R.
  destruct R as (old & user & _ & F & _ & _ & _ & C & _).
  intros E. rewrite E in C. congruence.
Qed.

(** X7.  Rotation keeps the owner and the number of sessions: after a
    successful [refreshToken] on a store with distinct tokens and ids,
    the returned refresh token is stored for the same user id as the
    consumed record, and the table has as many records as before. *)
Theorem refresh_keeps_owner_and_count now token d tokens d' ws :
  db_ok d ->
  refreshToken now token d = (Returned tokens, d', ws) ->
  exists old new,
    Prisma.findRefreshToken token d = Some old /\
    Prisma.findRefreshToken (AuthTokens.refreshToken tokens) d' = Some new /\
    RefreshTokenRow.userId new = RefreshTokenRow.userId old /\
    length (Db.refreshTokens d') = length (Db.refreshTokens d).
Proof.
  intros OK R. apply refreshToken_returned in R.
  destruct R as (old & user & _ & F & U & _ & _ & C & Ed & _).
  cbv zeta in Ed.
  destruct (findRefreshToken_Some _ _ _ F) as [Iold _].
  set (new := mintedRow localTZA d now (UserRow.id user)
                (AuthTokens.refreshToken tokens)) in *.
  assert (Et : Db.refreshTokens d' =
               withoutId (RefreshTokenRow.id old) (Db.refreshTokens d)
               ++ [new]).
  { subst d'. simpl. now apply rotated_keeps_new. }
  exists old, new. split; [exact F|]. split; [|split].
  - unfold Prisma.findRefreshToken in *. rewrite Et, find_snoc.
    unfold withoutId. rewrite find_all_false.
    + simpl. now rewrite String.eqb_refl.
    + intros x Ix. apply filter_In in Ix. destruct Ix as [Ix _].
      exact (find_None_In _ _ x C Ix).
  - unfold Prisma.findUserById in U. apply find_some in U.
    destruct U as [_ E]. apply String.eqb_eq in E. exact E.
  - rewrite Et, length_app. simpl. unfold withoutId.
    rewrite <- (length_without_one RefreshTokenRow.id (Db.refreshTokens d)
                  old (token_ids_unique d OK) Iold).
    lia.
Qed.

(** X8.  After [logout] of a token string, [refreshToken] of that string
    throws the 401 error at every clock reading and changes nothing. *)
Theorem logout_then_refresh_fails now token d :
  exists code,
    refreshToken now token (database (AuthService.logout token d))
    = (Threw (invalidRefreshToken code),
       database (AuthService.logout token d), []).
Proof.
  assert (G : Prisma.findRefreshToken token
                (database (AuthService.logout token d)) = None).
  { unfold AuthService.logout, bind, Prisma.refreshToken_deleteMany, ret,
      database, Prisma.findRefreshToken. simpl.
    apply find_all_false. intros x Ix. apply filter_In in Ix.
    destruct Ix as [_ Ix]. now apply negb_true_iff in Ix. }
  rewrite refreshToken_run, G.
  destruct (jwt_verify token _ now); eexists; reflexivity.
Qed.

(** X10.  The two requests with a catch block throw nothing but
    [ServiceError]s: whatever [refreshToken] throws is Unauthenticated,
    whatever [validateToken] throws is Unauthenticated or NotFound. *)
Theorem caught_requests_throw_service_errors now token d t d' ws :
  (refreshToken now token d = (Threw t, d', ws) ->
   exists e, t = IsServiceError e /\ kindOf e = Unauthenticated) /\
  (validateToken now token d = (Threw t, d', ws) ->
   exists e,
     t = IsServiceError e /\
     (kindOf e = Unauthenticated \/ kindOf e = NotFound)).
Proof.
  split.
  - intros R. apply refreshToken_threw in R.
    destruct R as (_ & _ & code & ->). eexists. split; reflexivity.
  - unfold AuthService.validateToken, try_catch, bind, orThrow,
      Prisma.user_findUnique_id, ret, throw.
    destruct (jwt_verify token (Config.jwtSecret cfg) now) as [decoded|];
      simpl.
    + destruct (Prisma.findUserById (JWTPayload.userId decoded) d); simpl;
        intros R; inversion R; subst.
      eexists. split; [reflexivity|]. right. reflexivity.
    + intros R; inversion R; subst.
      eexists. split; [reflexivity|]. left. reflexivity.
Qed.

(** X11.  After [deleteUser] has returned for an id, no user has that
    id: [getUserById] throws the 404 error, and so does [validateToken]
    for every token that verifies and decodes to that id. *)
Theorem deleted_user_is_not_found now userId d d' ws :
  AuthService.deleteUser userId d = (Returned tt, d', ws) ->
  Prisma.findUserById userId d' = None /\
  AuthService.getUserById userId d' =
  (Threw (IsServiceError (createServiceError "User not found" 404 None None)),
   d', []) /\
  forall token decoded,
    jwt_verify token (Config.jwtSecret cfg) now = Some decoded ->
    JWTPayload.userId decoded = userId ->
    validateToken now token d' =
    (Threw (IsServiceError
              (createServiceError "User not found" 404 None None)), d', []).
Proof.
  unfold AuthService.deleteUser, bind, Prisma.user_delete, ret.
  destruct (Prisma.findUserById userId d) as [u|] eqn:F; [|discriminate].
  intros R. inversion R; subst; clear R.
  assert (G : Prisma.findUserById userId
                (Db.mk (filter (fun u' => negb (String.eqb (UserRow.id u')
                                                           userId))
                               (Db.users d))
                       (filter (fun r => negb (String.eqb
                                                 (RefreshTokenRow.userId r)
                                                 userId))
                               (Db.refreshTokens d))
                       (Db.nextId d)) = None).
  { unfold Prisma.findUserById. simpl. apply find_all_false.
    intros x Ix. apply filter_In in Ix. destruct Ix as [_ Ix].
    now apply negb_true_iff in Ix. }
  split; [exact G|]. split.
  - unfold AuthService.getUserById, bind, Prisma.user_findUnique_id_select,
      ret, throw. rewrite G. reflexivity.
  - intros token decoded V E.
    unfold AuthService.validateToken, try_catch, bind, orThrow,
      Prisma.user_findUnique_id, ret, throw.
    rewrite V. simpl. rewrite E, G. reflexivity.
Qed.

(** X13.  After [deleteUser] has returned for an id, on a store with
    distinct tokens, every refresh token that was stored for that id is
    refused by [refreshToken] with the 401 error. *)
Theorem deleted_user_cannot_refresh now userId token row d d' ws :
  db_ok d ->
  AuthService.deleteUser userId d = (Returned tt, d', ws) ->
  Prisma.findRefreshToken token d = Some row ->
  RefreshTokenRow.userId row = userId ->
  exists code,
    refreshToken now token d' = (Threw (invalidRefreshToken code), d', []).
Proof.
  intros OK. unfold AuthService.deleteUser, bind, Prisma.user_delete, ret.
  destruct (Prisma.findUserById userId d) as [u|] eqn:F; [|discriminate].
  intros R Ft Eu. inversion R; subst d' ws; clear R.
  destruct (findRefreshToken_Some _ _ _ Ft) as [Irow Etok].
  rewrite refreshToken_run.
  destruct (jwt_verify token _ now); [|eexists; reflexivity].
  assert (G : Prisma.findRefreshToken token
                (Db.mk (filter (fun u' => negb (String.eqb (UserRow.id u')
                                                           userId))
                               (Db.users d))
                       (filter (fun r => negb (String.eqb
                                                 (RefreshTokenRow.userId r)
                                                 userId))
                               (Db.refreshTokens d))
                       (Db.nextId d)) = None).
  { unfold Prisma.findRefreshToken. simpl. apply find_all_false.
    intros x Ix. apply filter_In in Ix. destruct Ix as [Ix Hx].
    apply String.eqb_neq. intros Ex.
    assert (x = row).
    { apply (NoDup_map_eq RefreshTokenRow.token (Db.refreshTokens d));
        auto using tokens_unique. congruence. }
    subst x. rewrite Eu, String.eqb_refl in Hx. discriminate. }
  rewrite G. eexists. reflexivity.
Qed.

End Accounts.

(** X9.  [logout] revokes the given token only: every other token
    string is found after it exactly as before, and the users are
    untouched. *)
Theorem logout_spares_other_tokens token other d :
  other <> token ->
  Prisma.findRefreshToken other (database (AuthService.logout token d))
  = Prisma.findRefreshToken other d /\
  Db.users (database (AuthService.logout token d)) = Db.users d.
Proof.
  intros N.
  unfold AuthService.logout, bind, Prisma.refreshToken_deleteMany, ret,
    database, Prisma.findRefreshToken. simpl.
  split; [|reflexivity].
  apply find_after_filter. intros x P. apply String.eqb_eq in P.
  apply negb_true_iff, String.eqb_neq. congruence.
Qed.

(** X12.  [deleteUser] for an id that no user has throws the raw P2025
    error of the store, not a [ServiceError], and changes nothing. *)
Theorem deleteUser_of_unknown_id_throws userId d :
  Prisma.findUserById userId d = None ->
  AuthService.deleteUser userId d =
  (Threw (Other (PrismaClientKnownRequestError "P2025")), d, []).
Proof.
  intros F. unfold AuthService.deleteUser, bind, Prisma.user_delete.
  rewrite F. reflexivity.
Qed.

(* ================================================================== *)
(** * The constructor *)

Lemma orElse_nonempty (v : option string) (fallback : string) :
  fallback <> "" -> Constructor.orElse v fallback <> "".
Proof.
  intros N. unfold Constructor.orElse, Constructor.truthy.
  destruct v as [s|]; [|exact N].
  destruct (String.eqb_spec s ""); simpl; assumption.
Qed.

Lemma truthy_Some (v : option string) :
  Constructor.truthy v = true -> exists s, v = Some s /\ s <> "".
Proof.
  unfold Constructor.truthy. destruct v as [s|]; [|discriminate].
  destruct (String.eqb_spec s ""); simpl; [discriminate|].
  intros _. exists s. split; [reflexivity | assumption].
Qed.

(** X14.  The constructor throws exactly when [JWT_SECRET] or
    [JWT_REFRESH_SECRET] is unset or empty; nothing else in the
    environment, not even a [BCRYPT_ROUNDS] that is no number, makes it
    throw. *)
Theorem construct_throws_iff_secret_missing parseInt10 env :
  (exists message,
     Constructor.construct parseInt10 env = Constructor.ThrewError message)
  <->
  Constructor.truthy (env "JWT_SECRET") = false \/
  Constructor.truthy (env "JWT_REFRESH_SECRET") = false.
Proof.
  unfold Constructor.construct. simpl.
  destruct (Constructor.truthy (env "JWT_SECRET"));
    destruct (Constructor.truthy (env "JWT_REFRESH_SECRET")); simpl; split;
      try (intros [m E]; discriminate);
      try (intros [E | E]; discriminate);
      try (intros _; eexists; reflexivity);
      auto.
Qed.

(** X15.  A constructed service has usable fields: both secrets are the
    non-empty strings of the environment, both life times are non-empty
    (an unset or empty variable gives the default), and when
    [BCRYPT_ROUNDS] reads as a number the fields form the configuration
    the methods work with. *)
Theorem constructed_fields_are_usable parseInt10 env fields :
  Constructor.construct parseInt10 env = Constructor.Built fields ->
  exists secret refreshSecret,
    env "JWT_SECRET" = Some secret /\ secret <> "" /\
    env "JWT_REFRESH_SECRET" = Some refreshSecret /\ refreshSecret <> "" /\
    Constructor.jwtSecret fields = Some secret /\
    Constructor.jwtRefreshSecret fields = Some refreshSecret /\
    Constructor.jwtExpiresIn fields <> "" /\
    Constructor.jwtRefreshExpiresIn fields <> "" /\
    forall rounds,
      Constructor.bcryptRounds fields = Some rounds ->
      Constructor.config fields =
      Some (Config.mk secret refreshSecret
                      (Constructor.jwtExpiresIn fields)
                      (Constructor.jwtRefreshExpiresIn fields) rounds).
Proof.
  unfold Constructor.construct. simpl.
  destruct (Constructor.truthy (env "JWT_SECRET")) eqn:T1; simpl;
    [|discriminate].
  destruct (Constructor.truthy (env "JWT_REFRESH_SECRET")) eqn:T2; simpl;
    [|discriminate].
  intros E. inversion E; subst; clear E. simpl.
  destruct (truthy_Some _ T1) as (secret & E1 & N1).
  destruct (truthy_Some _ T2) as (refreshSecret & E2 & N2).
  exists secret, refreshSecret.
  repeat split; try assumption.
  - apply orElse_nonempty. discriminate.
  - apply orElse_nonempty. discriminate.
  - intros rounds R. unfold Constructor.config. simpl.
    rewrite E1, E2, R. reflexivity.
Qed.

(* ================================================================== *)
(** * The validation middleware *)

Lemma get_set_same field messages errors :
  Middleware.get field (Middleware.set field messages errors) = Some messages.
Proof.
  induction errors as [|[key old] rest IH]; simpl.
  - now rewrite String.eqb_refl.
  - destruct (String.eqb_spec key field) as [-> | N]; simpl.
    + now rewrite String.eqb_refl.
    + destruct (String.eqb_spec key field); [contradiction | exact IH].
Qed.

Lemma get_set_other field other messages errors :
  other <> field ->
  Middleware.get other (Middleware.set field messages errors)
  = Middleware.get other errors.
Proof.
  intros N. induction errors as [|[key old] rest IH]; simpl.
  - destruct (String.eqb_spec field other); [congruence | reflexivity].
  - destruct (String.eqb_spec key field) as [-> | Nk]; simpl.
    + destruct (String.eqb_spec field other); [congruence | reflexivity].
    + destruct (String.eqb_spec key other); [reflexivity | exact IH].
Qed.

Lemma set_set field first second errors :
  Middleware.set field second (Middleware.set field first errors)
  = Middleware.set field second errors.
Proof.
  induction errors as [|[key old] rest IH]; simpl.
  - now rewrite String.eqb_refl.
  - destruct (String.eqb_spec key field) as [-> | N]; simpl.
    + now rewrite String.eqb_refl.
    + destruct (String.eqb_spec key field); [contradiction|].
      now rewrite IH.
Qed.

(** The callback in one step: it throws on an inherited name, and else
    appends the message to the list of the field, starting the list when
    the field is new. *)
Lemma addDetail_run errors detail :
  Middleware.addDetail errors detail =
  if Middleware.inherited (Middleware.fieldOf detail) then None
  else
    Some (Middleware.set (Middleware.fieldOf detail)
            (match Middleware.get (Middleware.fieldOf detail) errors with
             | Some messages => messages
             | None => []
             end ++ [Middleware.message detail])
            errors).
Proof.
  unfold Middleware.addDetail.
  destruct (Middleware.inherited (Middleware.fieldOf detail)); [reflexivity|].
  destruct (Middleware.get (Middleware.fieldOf detail) errors) as [ms|] eqn:G.
  - rewrite G. reflexivity.
  - rewrite get_set_same, set_set. reflexivity.
Qed.

Lemma forEach_get details : forall errors errors' field,
  Middleware.forEach details errors = Some errors' ->
  Middleware.get field errors' =
  match Middleware.get field errors, Middleware.messagesFor field details with
  | None, [] => None
  | None, messages => Some messages
  | Some old, messages => Some (old ++ messages)
  end.
Proof.
  induction details as [|detail details IH]; intros errors errors' field; simpl.
  - intros E. inversion E; subst.
    destruct (Middleware.get field errors'); [|reflexivity].
    now rewrite app_nil_r.
  - rewrite addDetail_run.
    destruct (Middleware.inherited (Middleware.fieldOf detail)); [discriminate|].
    intros E. rewrite (IH _ _ field E). unfold Middleware.messagesFor. simpl.
    destruct (String.eqb_spec (Middleware.fieldOf detail) field) as [-> | N].
    + rewrite get_set_same. simpl.
      destruct (Middleware.get field errors) as [old|]; simpl.
      * now rewrite <- app_assoc.
      * reflexivity.
    + rewrite get_set_other by congruence. reflexivity.
Qed.

(** X16.  The 400 response groups the messages by field: for every
    field name, [errors] holds under it the messages of exactly the
    details whose joined path is that name, in the order of the details,
    and holds nothing under a name that no detail has. *)
Theorem validation_errors_group_by_field
        (Body : Type) (validate : Body -> option (list Middleware.Detail))
        body status response details field :
  Middleware.validateRequest Body validate body
    = Middleware.Responded status response ->
  validate body = Some details ->
  Middleware.get field (Middleware.errors response) =
  match Middleware.messagesFor field details with
  | [] => None
  | messages => Some messages
  end.
Proof.
  unfold Middleware.validateRequest. intros R V. rewrite V in R.
  destruct (Middleware.forEach details []) as [errors|] eqn:F;
    [|discriminate].
  inversion R; subst; clear R. simpl.
  rewrite (forEach_get details [] errors field F). simpl.
  destruct (Middleware.messagesFor field details); reflexivity.
Qed.

Lemma keys_of_set field messages errors :
  map fst (Middleware.set field messages errors) =
  match Middleware.get field errors with
  | Some _ => map fst errors
  | None => map fst errors ++ [field]
  end.
Proof.
  induction errors as [|[key old] rest IH]; simpl.
  - reflexivity.
  - destruct (String.eqb_spec key field) as [-> | N]; simpl.
    + reflexivity.
    + rewrite IH. now destruct (Middleware.get field rest).
Qed.

Lemma get_None_not_key field errors :
  Middleware.get field errors = None -> ~ In field (map fst errors).
Proof.
  induction errors as [|[key old] rest IH]; simpl.
  - tauto.
  - destruct (String.eqb_spec key field) as [-> | N]; [discriminate|].
    intros G [E | I]; [contradiction | exact (IH G I)].
Qed.

Lemma total_of_set field messages errors :
  (Middleware.total (Middleware.set field messages errors)
   + length (match Middleware.get field errors with
             | Some old => old
             | None => []
             end)
   = Middleware.total errors + length messages)%nat.
Proof.
  unfold Middleware.total.
  induction errors as [|[key old] rest IH]; simpl.
  - lia.
  - destruct (String.eqb_spec key field) as [-> | N]; simpl; lia.
Qed.

Lemma forEach_keys_total details : forall errors errors',
  Middleware.forEach details errors = Some errors' ->
  NoDup (map fst errors) ->
  NoDup (map fst errors') /\
  Middleware.total errors' = (Middleware.total errors + length details)%nat.
Proof.
  induction details as [|detail details IH]; intros errors errors'; simpl.
  - intros E N. inversion E; subst. split; [exact N | lia].
  - rewrite addDetail_run.
    destruct (Middleware.inherited (Middleware.fieldOf detail)); [discriminate|].
    intros E N. apply IH in E.
    + destruct E as [N' T]. split; [exact N'|]. rewrite T.
      pose proof (total_of_set (Middleware.fieldOf detail)
                    (match Middleware.get (Middleware.fieldOf detail) errors
                     with Some m => m | None => [] end
                     ++ [Middleware.message detail]) errors) as H.
      rewrite length_app in H. simpl in H. lia.
    + rewrite keys_of_set.
      destruct (Middleware.get (Middleware.fieldOf detail) errors) eqn:G;
        [exact N|].
      apply NoDup_app; [exact N | repeat constructor; simpl; tauto |].
      intros k Ik [<- | []]. exact (get_None_not_key _ _ G Ik).
Qed.

Lemma get_of_entry errors : forall field messages,
  NoDup (map fst errors) ->
  In (field, messages) errors ->
  Middleware.get field errors = Some messages.
Proof.
  induction errors as [|[key old] rest IH]; simpl; intros field messages N I.
  - contradiction.
  - apply NoDup_cons_iff in N. destruct N as [Hn N].
    destruct I as [E | I].
    + inversion E; subst. now rewrite String.eqb_refl.
    + destruct (String.eqb_spec key field) as [-> | Nk].
      * exfalso. apply Hn. apply in_map_iff. exists (field, messages).
        split; [reflexivity | exact I].
      * now apply IH.
Qed.

(** X17.  The 400 response loses and invents nothing: its [errors]
    object has one property per distinct field, no property holds an
    empty list, and the lists together hold as many messages as the
    validation error has details. *)
Theorem validation_errors_keep_every_message
        (Body : Type) (validate : Body -> option (list Middleware.Detail))
        body status response details :
  Middleware.validateRequest Body validate body
    = Middleware.Responded status response ->
  validate body = Some details ->
  NoDup (map fst (Middleware.errors response)) /\
  Middleware.total (Middleware.errors response) = length details /\
  forall field messages,
    In (field, messages) (Middleware.errors response) -> messages <> [].
Proof.
  unfold Middleware.validateRequest. intros R V. rewrite V in R.
  destruct (Middleware.forEach details []) as [errors|] eqn:F;
    [|discriminate].
  inversion R; subst; clear R. simpl.
  destruct (forEach_keys_total details [] errors F) as [N T];
    [constructor|].
  split; [exact N|]. split; [exact T|].
  intros field messages I E. subst messages.
  pose proof (get_of_entry errors field [] N I) as G.
  rewrite (forEach_get details [] errors field F) in G. simpl in G.
  destruct (Middleware.messagesFor field details); discriminate.
Qed.

Lemma forEach_throws details : forall errors,
  Middleware.forEach details errors = None <->
  existsb (fun d => Middleware.inherited (Middleware.fieldOf d)) details
  = true.
Proof.
  induction details as [|detail details IH]; intros errors; simpl.
  - split; discriminate.
  - rewrite addDetail_run.
    destruct (Middleware.inherited (Middleware.fieldOf detail)); simpl.
    + split; reflexivity.
    + apply IH.
Qed.

(** X18.  What the middleware does with a request: it calls [next]
    exactly when the schema reports no error; when a detail's joined path
    is the name of a member of [Object.prototype] it throws a TypeError
    and sends nothing; otherwise it answers with status 400,
    [success: false] and the message "Validation error". *)
Theorem validateRequest_outcomes
        (Body : Type) (validate : Body -> option (list Middleware.Detail))
        body :
  match validate body with
  | None =>
      Middleware.validateRequest Body validate body = Middleware.CalledNext
  | Some details =>
      if existsb (fun d => Middleware.inherited (Middleware.fieldOf d))
                 details
      then Middleware.validateRequest Body validate body
           = Middleware.ThrewTypeError
      else exists errors,
          Middleware.validateRequest Body validate body
          = Middleware.Responded 400
              (Middleware.mkValidationBody false "Validation error" errors)
  end.
Proof.
  unfold Middleware.validateRequest.
  destruct (validate body) as [details|]; [|reflexivity].
  destruct (existsb _ details) eqn:X.
  - apply (forEach_throws details []) in X. rewrite X. reflexivity.
  - destruct (Middleware.forEach details []) as [errors|] eqn:F.
    + exists errors. reflexivity.
    + apply (forEach_throws details []) in F. congruence.
Qed.

(* ================================================================== *)
(** * More requests at work *)

Lemma login_keeps_sessions_witness :
  exists tokens d' ws,
    Std.login (Std.t0 + 1000) "a@x.com" "pw1" Std.db1
      = (Returned tokens, d', ws) /\
    Db.users d' = Db.users Std.db1 /\
    Prisma.findRefreshToken Std.RT1 d'
      = Prisma.findRefreshToken Std.RT1 Std.db1 /\
    Prisma.findRefreshToken Std.RT1 d' <> None.
Proof.
  assert (R : exists tokens d' ws,
             Std.login (Std.t0 + 1000) "a@x.com" "pw1" Std.db1
             = (Returned tokens, d', ws))
    by (vm_compute; do 3 eexists; reflexivity).
  destruct R as (tokens & d' & ws & R).
  assert (F : exists row, Prisma.findRefreshToken Std.RT1 Std.db1 = Some row)
    by (vm_compute; eexists; reflexivity).
  destruct F as (row & F).
  destruct (login_keeps_sessions
              Std.jwt_sign Bcrypt.compare Std.cfg Std.zone (Std.t0 + 1000) "a@x.com"
              "pw1" Std.db1 tokens d' ws R)
    as (U & _ & K).
  exists tokens, d', ws. split; [exact R|]. split; [exact U|].
  rewrite (K Std.RT1 row F), F. split; [reflexivity | discriminate].
Defined.

Lemma failed_login_and_lookups_write_nothing_witness :
  exists t d' ws,
    Std.login Std.t0 "a@x.com" "wrong" Std.db1 = (Threw t, d', ws) /\
    d' = Std.db1 /\ ws = [].
Proof.
  assert (R : exists t d' ws,
             Std.login Std.t0 "a@x.com" "wrong" Std.db1 = (Threw t, d', ws))
    by (vm_compute; do 3 eexists; reflexivity).
  destruct R as (t & d' & ws & R).
  exists t, d', ws. split; [exact R|].
  exact (proj1 (failed_login_and_lookups_write_nothing
                  Std.jwt_sign Std.jwt_verify Bcrypt.compare Std.cfg Std.zone
                  Std.t0 "a@x.com" "wrong" "garbage" "0" Std.db1)
               t d' ws R).
Defined.


Lemma refresh_returns_another_token_witness :
  exists tokens d' ws,
    Std.refreshToken (Std.t0 + 1000) Std.RT1 Std.db1
      = (Returned tokens, d', ws) /\
    AuthTokens.refreshToken tokens <> Std.RT1.
Proof.
  assert (R : exists tokens d' ws,
             Std.refreshToken (Std.t0 + 1000) Std.RT1 Std.db1
             = (Returned tokens, d', ws))
    by (vm_compute; do 3 eexists; reflexivity).
  destruct R as (tokens & d' & ws & R).
  exists tokens, d', ws. split; [exact R|].
  exact (refresh_returns_another_token
           Std.jwt_sign Std.jwt_verify Std.cfg Std.zone (Std.t0 + 1000) Std.RT1
           Std.db1 tokens d' ws R).
Defined.

Lemma refresh_keeps_owner_and_count_witness :
  exists tokens d' ws old new,
    db_ok Std.db1 /\
    Std.refreshToken (Std.t0 + 1000) Std.RT1 Std.db1
      = (Returned tokens, d', ws) /\
    Prisma.findRefreshToken Std.RT1 Std.db1 = Some old /\
    Prisma.findRefreshToken (AuthTokens.refreshToken tokens) d' = Some new /\
    RefreshTokenRow.userId new = RefreshTokenRow.userId old /\
    length (Db.refreshTokens d') = length (Db.refreshTokens Std.db1).
Proof.
  assert (R : exists tokens d' ws,
             Std.refreshToken (Std.t0 + 1000) Std.RT1 Std.db1
             = (Returned tokens, d', ws))
    by (vm_compute; do 3 eexists; reflexivity).
  destruct R as (tokens & d' & ws & R).
  destruct (refresh_keeps_owner_and_count
              Std.jwt_sign Std.jwt_verify Std.cfg Std.zone (Std.t0 + 1000) Std.RT1
              Std.db1 tokens d' ws db1_ok R)
    as (old & new & H).
  exists tokens, d', ws, old, new.
  split; [exact db1_ok|]. split; [exact R | exact H].
Defined.

Lemma caught_requests_throw_service_errors_witness :
  exists t d' ws e,
    Std.refreshToken Std.t0 "garbage" Std.db1 = (Threw t, d', ws) /\
    t = IsServiceError e /\ kindOf e = Unauthenticated.
Proof.
  assert (R : exists t d' ws,
             Std.refreshToken Std.t0 "garbage" Std.db1 = (Threw t, d', ws))
    by (vm_compute; do 3 eexists; reflexivity).
  destruct R as (t & d' & ws & R).
  destruct (proj1 (caught_requests_throw_service_errors
                     Std.jwt_sign Std.jwt_verify Std.cfg Std.zone Std.t0 "garbage"
                     Std.db1 t d' ws) R)
    as (e & H).
  exists t, d', ws, e. split; [exact R | exact H].
Defined.

Lemma deleted_user_is_not_found_witness :
  exists d' ws decoded,
    AuthService.deleteUser "0" Std.db1 = (Returned tt, d', ws) /\
    Std.jwt_verify Std.AT1 "access-secret" Std.t0 = Some decoded /\
    JWTPayload.userId decoded = "0" /\
    Prisma.findUserById "0" d' = None /\
    Std.validateToken Std.t0 Std.AT1 d' =
    (Threw (IsServiceError
              (createServiceError "User not found" 404 None None)), d', []).
Proof.
  assert (R : exists d' ws,
             AuthService.deleteUser "0" Std.db1 = (Returned tt, d', ws))
    by (vm_compute; do 2 eexists; reflexivity).
  destruct R as (d' & ws & R).
  assert (V : exists decoded,
             Std.jwt_verify Std.AT1 "access-secret" Std.t0 = Some decoded /\
             JWTPayload.userId decoded = "0")
    by (eexists; split; [vm_compute; reflexivity | reflexivity]).
  destruct V as (decoded & V & E).
  destruct (deleted_user_is_not_found
              Std.jwt_verify Std.cfg Std.t0 "0" Std.db1 d' ws R)
    as (G & _ & H).
  exists d', ws, decoded. split; [exact R|]. split; [exact V|].
  split; [exact E|]. split; [exact G|].
  exact (H Std.AT1 decoded V E).
Defined.

Lemma deleted_user_cannot_refresh_witness :
  exists d' ws row code,
    db_ok Std.db1 /\
    AuthService.deleteUser "0" Std.db1 = (Returned tt, d', ws) /\
    Prisma.findRefreshToken Std.RT1 Std.db1 = Some row /\
    RefreshTokenRow.userId row = "0" /\
    Std.refreshToken (Std.t0 + 1000) Std.RT1 d'
      = (Threw (invalidRefreshToken code), d', []).
Proof.
  assert (R : exists d' ws,
             AuthService.deleteUser "0" Std.db1 = (Returned tt, d', ws))
    by (vm_compute; do 2 eexists; reflexivity).
  destruct R as (d' & ws & R).
  assert (F : exists row,
             Prisma.findRefreshToken Std.RT1 Std.db1 = Some row /\
             RefreshTokenRow.userId row = "0")
    by (eexists; split; [vm_compute; reflexivity | reflexivity]).
  destruct F as (row & F & E).
  destruct (deleted_user_cannot_refresh
              Std.jwt_sign Std.jwt_verify Std.cfg Std.zone (Std.t0 + 1000) "0"
              Std.RT1 row Std.db1 d' ws db1_ok R F E)
    as (code & H).
  exists d', ws, row, code. split; [exact db1_ok|]. split; [exact R|].
  split; [exact F|]. split; [exact E | exact H].
Defined.

Lemma logout_spares_other_tokens_witness :
  "unknown" <> Std.RT1 /\
  Prisma.findRefreshToken "unknown"
    (database (AuthService.logout Std.RT1 Std.db1))
  = Prisma.findRefreshToken "unknown" Std.db1.
Proof.
  assert (N : "unknown" <> Std.RT1) by (vm_compute; discriminate).
  split; [exact N|].
  exact (proj1 (logout_spares_other_tokens Std.RT1 "unknown" Std.db1 N)).
Defined.

Lemma deleteUser_of_unknown_id_throws_witness :
  Prisma.findUserById "42" Std.db1 = None /\
  AuthService.deleteUser "42" Std.db1 =
  (Threw (Other (PrismaClientKnownRequestError "P2025")), Std.db1, []).
Proof.
  assert (F : Prisma.findUserById "42" Std.db1 = None)
    by (vm_compute; reflexivity).
  split; [exact F|].
  exact (deleteUser_of_unknown_id_throws "42" Std.db1 F).
Defined.

Lemma construct_throws_iff_secret_missing_witness :
  Constructor.truthy (Sample.envWithoutRefreshSecret "JWT_REFRESH_SECRET")
    = false /\
  exists message,
    Constructor.construct readZ Sample.envWithoutRefreshSecret
    = Constructor.ThrewError message.
Proof.
  assert (T : Constructor.truthy
                (Sample.envWithoutRefreshSecret "JWT_REFRESH_SECRET")
              = false) by reflexivity.
  split; [exact T|].
  exact (proj2 (construct_throws_iff_secret_missing
                  readZ Sample.envWithoutRefreshSecret) (or_intror T)).
Defined.

Lemma constructed_fields_are_usable_witness :
  exists fields,
    Constructor.construct readZ Sample.env = Constructor.Built fields /\
    Constructor.config fields = Some Std.cfg.
Proof.
  assert (R : exists fields,
             Constructor.construct readZ Sample.env
             = Constructor.Built fields /\
             Constructor.bcryptRounds fields = Some 10 /\
             Constructor.jwtExpiresIn fields = "15m" /\
             Constructor.jwtRefreshExpiresIn fields = "7d")
    by (eexists; split; [vm_compute; reflexivity|];
        split; [vm_compute; reflexivity|]; split; reflexivity).
  destruct R as (fields & R & B & Ea & Er).
  destruct (constructed_fields_are_usable readZ Sample.env fields R)
    as (secret & refreshSecret & E1 & _ & E2 & _ & _ & _ & _ & _ & C).
  exists fields. split; [exact R|].
  rewrite (C 10 B), Ea, Er.
  assert (S1 : secret = "access-secret") by (vm_compute in E1; congruence).
  assert (S2 : refreshSecret = "refresh-secret")
    by (vm_compute in E2; congruence).
  rewrite S1, S2. reflexivity.
Defined.

Lemma validation_errors_group_by_field_witness :
  exists status response,
    Middleware.validateRequest _ Sample.verdict (Some Sample.signupDetails)
      = Middleware.Responded status response /\
    Sample.verdict (Some Sample.signupDetails) = Some Sample.signupDetails /\
    Middleware.get "password" (Middleware.errors response)
      = Some ["password is too short"; "password needs a digit"] /\
    Middleware.get "profile.age" (Middleware.errors response)
      = Some ["age must be a number"] /\
    Middleware.get "name" (Middleware.errors response) = None.
Proof.
  assert (R : exists status response,
             Middleware.validateRequest _ Sample.verdict
               (Some Sample.signupDetails)
             = Middleware.Responded status response)
    by (vm_compute; do 2 eexists; reflexivity).
  destruct R as (status & response & R).
  exists status, response. split; [exact R|]. split; [reflexivity|].
  split; [|split].
  - exact (validation_errors_group_by_field _ Sample.verdict
             (Some Sample.signupDetails) status response
             Sample.signupDetails "password" R eq_refl).
  - exact (validation_errors_group_by_field _ Sample.verdict
             (Some Sample.signupDetails) status response
             Sample.signupDetails "profile.age" R eq_refl).
  - exact (validation_errors_group_by_field _ Sample.verdict
             (Some Sample.signupDetails) status response
             Sample.signupDetails "name" R eq_refl).
Defined.

Lemma validation_errors_keep_every_message_witness :
  exists status response,
    Middleware.validateRequest _ Sample.verdict (Some Sample.signupDetails)
      = Middleware.Responded status response /\
    Sample.verdict (Some Sample.signupDetails) = Some Sample.signupDetails /\
    NoDup (map fst (Middleware.errors response)) /\
    Middleware.total (Middleware.errors response) = 4%nat.
Proof.
  assert (R : exists status response,
             Middleware.validateRequest _ Sample.verdict
               (Some Sample.signupDetails)
             = Middleware.Responded status response)
    by (vm_compute; do 2 eexists; reflexivity).
  destruct R as (status & response & R).
  destruct (validation_errors_keep_every_message _ Sample.verdict
              (Some Sample.signupDetails) status response
              Sample.signupDetails R eq_refl)
    as (N & T & _).
  exists status, response. split; [exact R|]. split; [reflexivity|].
  split; [exact N | exact T].
Defined.

(** A validation error on a field named "constructor" is not answered
    with 400: the middleware throws. *)
Lemma validateRequest_outcomes_witness :
  Middleware.validateRequest _ Sample.verdict (Some Sample.prototypeDetails)
  = Middleware.ThrewTypeError.
Proof.
  exact (validateRequest_outcomes _ Sample.verdict
           (Some Sample.prototypeDetails)).
Defined.

(* ================================================================== *)
(** * Access tokens and the user table *)

Lemma validateToken_reads_users jwt_verify cfg now token d1 d2 :
  Db.users d1 = Db.users d2 ->
  outcome (AuthService.validateToken jwt_verify cfg now token d1)
  = outcome (AuthService.validateToken jwt_verify cfg now token d2).
Proof.
  intros E.
  unfold AuthService.validateToken, try_catch, bind, orThrow,
    Prisma.user_findUnique_id, Prisma.findUserById, ret, throw, outcome.
  destruct (jwt_verify token (Config.jwtSecret cfg) now) as [decoded|];
    simpl; [|reflexivity].
  rewrite E.
  destruct (find _ (Db.users d2)); reflexivity.
Qed.

Lemma users_after_request
      jwt_sign jwt_verify bcrypt_hash bcrypt_compare cfg localTZA d request :
  writesUsers request = false ->
  Db.users (serve jwt_sign jwt_verify bcrypt_hash bcrypt_compare cfg localTZA d
                  request)
  = Db.users d.
Proof.
  destruct request as [now salt email password | now email password
                      | now token | token | now token | userId | userId];
    simpl; try discriminate; intros _.
  - destruct (AuthService.login jwt_sign bcrypt_compare cfg localTZA now email
                                password d) as [[[tokens | t] d'] ws] eqn:R;
      unfold database; simpl.
    + now destruct (login_keeps_sessions _ _ _ _ _ _ _ _ _ _ _ R) as [U _].
    + rewrite login_run in R.
      destruct (Prisma.findUserByEmail email d) as [user|].
      * destruct (bcrypt_compare _ _).
        -- apply generateTokens_threw in R. now destruct R as (-> & _).
        -- now inversion R.
      * now inversion R.
  - rewrite refreshToken_run.
    repeat first
      [ progress cbv zeta
      | match goal with
        | |- context [match ?x with _ => _ end] => destruct x
        end ]; reflexivity.
  - reflexivity.
  - unfold AuthService.validateToken, try_catch, bind, orThrow,
      Prisma.user_findUnique_id, ret, throw, database.
    destruct (jwt_verify token (Config.jwtSecret cfg) now) as [decoded|];
      simpl; [|reflexivity].
    destruct (Prisma.findUserById (JWTPayload.userId decoded) d); reflexivity.
  - unfold AuthService.getUserById, bind, Prisma.user_findUnique_id_select,
      ret, throw, database.
    destruct (Prisma.findUserById userId d); reflexivity.
Qed.

(** X20.  Access tokens are not revocable: whatever [validateToken]
    answers for a token, it answers the same after any [login],
    [refreshToken], [logout], [validateToken] or [getUserById] request has
    been served in between, since none of them touches the user table.
    Only [register] and [deleteUser] can change the answer. *)
Theorem validateToken_unaffected_by_sessions
        jwt_sign jwt_verify bcrypt_hash bcrypt_compare cfg localTZA
        now token d request :
  writesUsers request = false ->
  outcome (AuthService.validateToken jwt_verify cfg now token
             (serve jwt_sign jwt_verify bcrypt_hash bcrypt_compare cfg localTZA d
                    request))
  = outcome (AuthService.validateToken jwt_verify cfg now token d).
Proof.
  intros W. apply validateToken_reads_users.
  now apply users_after_request.
Qed.

Lemma validateToken_unaffected_by_sessions_witness :
  writesUsers (Logout Std.RT1) = false /\
  exists decoded,
    outcome (Std.validateToken Std.t0 Std.AT1
               (database (AuthService.logout Std.RT1 Std.db1)))
    = Returned decoded.
Proof.
  assert (W : writesUsers (Logout Std.RT1) = false) by reflexivity.
  split; [exact W|].
  assert (V : exists decoded,
             outcome (Std.validateToken Std.t0 Std.AT1 Std.db1)
             = Returned decoded)
    by (vm_compute; eexists; reflexivity).
  destruct V as (decoded & V). exists decoded.
  rewrite <- V.
  exact (validateToken_unaffected_by_sessions
           Std.jwt_sign Std.jwt_verify Bcrypt.hash Bcrypt.compare Std.cfg Std.zone
           Std.t0 Std.AT1 Std.db1 (Logout Std.RT1) W).
Defined.

(** X21.  Register, then look up: on a store whose ids were all handed
    out by the generator, after a successful [register] the lookup
    [getUserById] of the new user's id returns the user with the
    registered email and both timestamps at the registration clock, and
    no password. *)
Theorem register_then_getUserById
        jwt_sign bcrypt_hash cfg localTZA now salt email password d tokens d1
        ws :
  db_ok d ->
  AuthService.register jwt_sign bcrypt_hash cfg localTZA now salt email password d
    = (Returned tokens, d1, ws) ->
  AuthService.getUserById (Prisma.genId (Db.nextId d)) d1 =
  (Returned (Some (User.mk (Prisma.genId (Db.nextId d)) email now now)),
   d1, []).
Proof.
  intros OK R. apply register_returned in R. cbv zeta in R.
  destruct R as (_ & _ & _ & Ed & _).
  assert (G : Prisma.findUserById (Prisma.genId (Db.nextId d)) d1 =
              Some (registeredUser bcrypt_hash cfg d now salt email
                                   password)).
  { subst d1. unfold Prisma.findUserById. simpl. rewrite find_snoc.
    rewrite find_all_false.
    - simpl. now rewrite String.eqb_refl.
    - intros u Iu. apply String.eqb_neq.
      pose proof (user_ids_allocated d OK) as A.
      rewrite Forall_forall in A.
      exact (allocated_not_next _ _ (A u Iu)). }
  unfold AuthService.getUserById, bind, Prisma.user_findUnique_id_select,
    ret. rewrite G. reflexivity.
Qed.

Lemma register_then_getUserById_witness :
  exists tokens ws,
    db_ok Db.empty /\
    Std.registered = (Returned tokens, Std.db1, ws) /\
    AuthService.getUserById "0" Std.db1 =
    (Returned (Some (User.mk "0" "a@x.com" Std.t0 Std.t0)), Std.db1, []).
Proof.
  assert (R : exists tokens ws,
             Std.registered = (Returned tokens, Std.db1, ws))
    by (vm_compute; do 2 eexists; reflexivity).
  destruct R as (tokens & ws & R).
  exists tokens, ws. split; [exact db_ok_empty|]. split; [exact R|].
  exact (register_then_getUserById
           Std.jwt_sign Bcrypt.hash Std.cfg Std.zone Std.t0 "salt" "a@x.com" "pw1"
           Db.empty tokens Std.db1 ws db_ok_empty R).
Defined.

(* ================================================================== *)
(** * A registered email stays taken *)

Lemma user_survives
      jwt_sign jwt_verify bcrypt_hash bcrypt_compare cfg localTZA d request u :
  deletesUser (UserRow.id u) request = false ->
  In u (Db.users d) ->
  In u (Db.users (serve jwt_sign jwt_verify bcrypt_hash bcrypt_compare cfg
                        localTZA d request)).
Proof.
  intros N I.
  destruct request as [now salt email password | now email password
                      | now token | token | now token | userId | userId].
  - simpl. rewrite register_run.
    destruct (Prisma.findUserByEmail email d); [exact I|]. cbv zeta.
    destruct (AuthService.generateTokens _ _ _ _ _ _ _)
      as [[[tokens | t] d'] ws] eqn:G; unfold database; simpl.
    + apply generateTokens_returned in G. destruct G as (_ & _ & _ & -> & _).
      simpl. apply in_or_app. now left.
    + apply generateTokens_threw in G. destruct G as (-> & _).
      simpl. apply in_or_app. now left.
  - now rewrite users_after_request.
  - now rewrite users_after_request.
  - now rewrite users_after_request.
  - now rewrite users_after_request.
  - now rewrite users_after_request.
  - simpl in *. unfold AuthService.deleteUser, bind, Prisma.user_delete, ret,
      database.
    destruct (Prisma.findUserById userId d); simpl; [|exact I].
    apply filter_In. split; [exact I|].
    apply negb_true_iff. rewrite String.eqb_sym. exact N.
Qed.

Lemma user_survives_all
      jwt_sign jwt_verify bcrypt_hash bcrypt_compare cfg localTZA u requests :
  forall d,
    forallb (fun r => negb (deletesUser (UserRow.id u) r)) requests = true ->
    In u (Db.users d) ->
    In u (Db.users
            (fold_left (serve jwt_sign jwt_verify bcrypt_hash bcrypt_compare
                              cfg localTZA) requests d)).
Proof.
  induction requests as [|request requests IH]; intros d A I; simpl.
  - exact I.
  - simpl in A. apply andb_true_iff in A. destruct A as [N A].
    apply IH; [exact A|]. apply user_survives; [|exact I].
    now apply negb_true_iff.
Qed.

Lemma register_of_taken_email
      jwt_sign bcrypt_hash cfg localTZA now salt password d u :
  In u (Db.users d) ->
  AuthService.register jwt_sign bcrypt_hash cfg localTZA now salt
                       (UserRow.email u) password d
  = (Threw userAlreadyExists, d, []).
Proof.
  intros I. rewrite register_run.
  destruct (Prisma.findUserByEmail (UserRow.email u) d) eqn:F;
    [reflexivity|].
  exfalso. revert F. apply find_In_not_None with (x := u); [exact I|].
  apply String.eqb_refl.
Qed.

(** X1.  Once [register] has succeeded for an email, the email stays
    taken: after any further requests, none of which is a [deleteUser] of
    the new user's id, every [register] with that email, whatever the
    password, the salt and the clock, throws the 409 "User already
    exists" error (Conflict) and writes nothing. *)
Theorem register_again_conflicts
        jwt_sign jwt_verify bcrypt_hash bcrypt_compare cfg localTZA
        now salt email password d tokens d1 ws
        requests now' salt' password' :
  AuthService.register jwt_sign bcrypt_hash cfg localTZA now salt
                       email password d
    = (Returned tokens, d1, ws) ->
  forallb (fun r => negb (deletesUser (Prisma.genId (Db.nextId d)) r))
          requests = true ->
  exists e,
    AuthService.register jwt_sign bcrypt_hash cfg localTZA now' salt'
                         email password'
      (fold_left (serve jwt_sign jwt_verify bcrypt_hash bcrypt_compare cfg
                        localTZA) requests d1)
    = (Threw (IsServiceError e),
       fold_left (serve jwt_sign jwt_verify bcrypt_hash bcrypt_compare cfg
                        localTZA) requests d1, []) /\
    kindOf e = Conflict /\
    ServiceError.message e = "User already exists".
Proof.
  intros R A. apply register_returned in R. cbv zeta in R.
  destruct R as (_ & _ & _ & Ed & _).
  set (u := registeredUser bcrypt_hash cfg d now salt email password) in *.
  assert (I : In u (Db.users d1)).
  { subst d1. simpl. apply in_or_app. right. now left. }
  pose proof (user_survives_all jwt_sign jwt_verify bcrypt_hash
                bcrypt_compare cfg localTZA u requests d1 A I) as I2.
  pose proof (register_of_taken_email jwt_sign bcrypt_hash cfg localTZA
                now' salt' password' _ u I2) as C.
  eexists. split; [exact C|]. split; reflexivity.
Qed.

(** X2.  [register] is not atomic.  When it throws for an email that was
    free, the thrown value is a library error out of [generateTokens],
    the user row has been inserted all the same and is the only write,
    and the email stays taken: after any further requests, none of which
    is a [deleteUser] of that row's id, every [register] with that email
    throws the 409 error. *)
Theorem register_failure_keeps_user
        jwt_sign jwt_verify bcrypt_hash bcrypt_compare cfg localTZA
        now salt email password d t d' ws :
  Prisma.findUserByEmail email d = None ->
  AuthService.register jwt_sign bcrypt_hash cfg localTZA now salt
                       email password d
    = (Threw t, d', ws) ->
  (exists e, t = Other e) /\
  d' = withUser d (registeredUser bcrypt_hash cfg d now salt email password)
  /\
  ws = [UserCreate (registeredUser bcrypt_hash cfg d now salt email password)]
  /\
  forall requests now' salt' password',
    forallb (fun r => negb (deletesUser (Prisma.genId (Db.nextId d)) r))
            requests = true ->
    AuthService.register jwt_sign bcrypt_hash cfg localTZA now' salt'
                         email password'
      (fold_left (serve jwt_sign jwt_verify bcrypt_hash bcrypt_compare cfg
                        localTZA) requests d')
    = (Threw userAlreadyExists,
       fold_left (serve jwt_sign jwt_verify bcrypt_hash bcrypt_compare cfg
                        localTZA) requests d', []).
Proof.
  intros F R. rewrite register_run, F in R. cbv zeta in R.
  destruct (AuthService.generateTokens _ _ _ _ _ _ _) as [[o d2] w2] eqn:G.
  inversion R; subst; clear R.
  apply generateTokens_threw in G. destruct G as (-> & -> & E).
  split; [exact E|]. split; [reflexivity|]. split; [reflexivity|].
  intros requests now' salt' password' A.
  set (u := registeredUser bcrypt_hash cfg d now salt email password) in *.
  assert (I : In u (Db.users (withUser d u))).
  { simpl. apply in_or_app. right. now left. }
  pose proof (user_survives_all jwt_sign jwt_verify bcrypt_hash
                bcrypt_compare cfg localTZA u requests _ A I) as I2.
  exact (register_of_taken_email jwt_sign bcrypt_hash cfg localTZA
           now' salt' password' _ u I2).
Qed.

(** Two further requests that leave the first user alone: a login and
    the deletion of somebody else. *)
Lemma register_again_conflicts_witness :
  exists tokens ws e,
    Std.registered = (Returned tokens, Std.db1, ws) /\
    forallb (fun r => negb (deletesUser "0" r))
            [Login (Std.t0 + 1000) "a@x.com" "pw1"; DeleteUser "7"] = true /\
    Std.register (Std.t0 + 5000) "pepper" "a@x.com" "other"
      (fold_left (serve Std.jwt_sign Std.jwt_verify Bcrypt.hash
                        Bcrypt.compare Std.cfg Std.zone)
                 [Login (Std.t0 + 1000) "a@x.com" "pw1"; DeleteUser "7"]
                 Std.db1)
    = (Threw (IsServiceError e),
       fold_left (serve Std.jwt_sign Std.jwt_verify Bcrypt.hash
                        Bcrypt.compare Std.cfg Std.zone)
                 [Login (Std.t0 + 1000) "a@x.com" "pw1"; DeleteUser "7"]
                 Std.db1, []) /\
    kindOf e = Conflict /\
    ServiceError.message e = "User already exists".
Proof.
  assert (R : exists tokens ws,
             Std.registered = (Returned tokens, Std.db1, ws))
    by (vm_compute; do 2 eexists; reflexivity).
  destruct R as (tokens & ws & R).
  assert (A : forallb (fun r => negb (deletesUser "0" r))
                [Login (Std.t0 + 1000) "a@x.com" "pw1"; DeleteUser "7"]
              = true) by reflexivity.
  destruct (register_again_conflicts
              Std.jwt_sign Std.jwt_verify Bcrypt.hash Bcrypt.compare
              Std.cfg Std.zone Std.t0 "salt" "a@x.com" "pw1" Db.empty
              tokens Std.db1 ws
              [Login (Std.t0 + 1000) "a@x.com" "pw1"; DeleteUser "7"]
              (Std.t0 + 5000) "pepper" "other" R A)
    as (e & H).
  exists tokens, ws, e. split; [exact R|]. split; [exact A | exact H].
Defined.

Lemma register_failure_keeps_user_witness :
  exists t d' ws,
    Prisma.findUserByEmail "a@x.com" Db.empty = None /\
    Faulty.register Std.t0 "salt" "a@x.com" "pw1" Db.empty
      = (Threw t, d', ws) /\
    (exists e, t = Other e) /\
    length (Db.users d') = 1%nat /\
    forallb (fun r => negb (deletesUser "0" r)) [Logout "unknown"] = true /\
    Faulty.register (Std.t0 + 5000) "salt" "a@x.com" "pw1"
      (fold_left (serve Std.jwt_sign Std.jwt_verify Bcrypt.hash
                        Bcrypt.compare Faulty.cfg Std.zone)
                 [Logout "unknown"] d')
    = (Threw userAlreadyExists,
       fold_left (serve Std.jwt_sign Std.jwt_verify Bcrypt.hash
                        Bcrypt.compare Faulty.cfg Std.zone)
                 [Logout "unknown"] d', []).
Proof.
  assert (F : Prisma.findUserByEmail "a@x.com" Db.empty = None)
    by reflexivity.
  assert (R : exists t d' ws,
             Faulty.register Std.t0 "salt" "a@x.com" "pw1" Db.empty
             = (Threw t, d', ws))
    by (vm_compute; do 3 eexists; reflexivity).
  destruct R as (t & d' & ws & R).
  assert (A : forallb (fun r => negb (deletesUser "0" r)) [Logout "unknown"]
              = true) by reflexivity.
  destruct (register_failure_keeps_user
              Std.jwt_sign Std.jwt_verify Bcrypt.hash Bcrypt.compare
              Faulty.cfg Std.zone Std.t0 "salt" "a@x.com" "pw1" Db.empty
              t d' ws F R)
    as (E & Ed & _ & Again).
  exists t, d', ws. split; [exact F|]. split; [exact R|].
  split; [exact E|]. split; [rewrite Ed; reflexivity|].
  split; [exact A|].
  exact (Again [Logout "unknown"] (Std.t0 + 5000) "salt" "pw1" A).
Defined.
